(** * Synthetic auction data generator: a shallow embedding

    The development embeds the two generation scripts of the repository,
    [scripts/generate_auction_data.py] (the CSV profile, at top level here)
    and [scripts/generate_mock_auction_data.py] (the database profile,
    [Module Mock]), and proves properties of the records they emit.

    Conventions of the embedding.
    - Python integers are [Z]; strings are [string]; lists are [list];
      dictionaries, whose iteration order the code relies on, are
      association lists in insertion order.
    - Python floats are IEEE binary64 values.  Float literals, sums of
      literals and the products [int(x * c)] are computed with the kernel's
      primitive floats; a float is compared through its exact rational
      value ([Q_of_float]).
    - The random source is a tape of raw draws consumed left to right.
      [random.random()] returns [k / 2^53] for the 53-bit integer [k] read
      from the tape, which is exactly how CPython builds it.  Inside
      [random.choices] the product [random() * total] is taken exactly (its
      binary64 rounding is not modelled).
    - Exceptions ([IndexError], [ValueError], [KeyError]) are results of
      the monad [M]; a [datetime] is its proleptic Gregorian ordinal and
      its seconds since midnight. *)

From Stdlib Require Import ZArith QArith List String Ascii Bool Lia.
From Stdlib Require Import Floats Uint63 DecimalString Lqa Sorted.
Import ListNotations.

Local Open Scope string_scope.
Local Open Scope list_scope.
Local Open Scope Z_scope.

(* ================================================================== *)
(** ** Python values *)

(** [float(z)] for an integer below [2^63]. *)
Definition float_of_int (z : Z) : float := PrimFloat.of_uint63 (Uint63.of_Z z).

(** [int(f)]: truncation toward zero. *)
Definition int_of_float (f : float) : Z :=
  match Prim2SF f with
  | S754_finite s m e =>
      let v := match e with
               | Zneg p => Z.shiftr (Z.pos m) (Z.pos p)
               | _ => Z.shiftl (Z.pos m) e
               end in
      if s then - v else v
  | _ => 0
  end.

(** The exact value of a finite float. *)
Definition Q_of_float (f : float) : Q :=
  match Prim2SF f with
  | S754_finite s m e =>
      let q := match e with
               | Zneg p => Qmake (Z.pos m) (2 ^ p)%positive
               | _ => inject_Z (Z.shiftl (Z.pos m) e)
               end in
      if s then Qopp q else q
  | _ => 0%Q
  end.

(** [str(n)] for an integer. *)
Definition str (z : Z) : string := NilZero.string_of_int (Z.to_int z).

(** [f"{n:02d}"], the two-digit fields of [strftime]. *)
Definition pad2 (z : Z) : string :=
  if z <? 10 then ("0" ++ str z)%string else str z.

(** [f"{n:04d}"] for a year. *)
Definition pad4 (z : Z) : string :=
  if z <? 10 then ("000" ++ str z)%string
  else if z <? 100 then ("00" ++ str z)%string
  else if z <? 1000 then ("0" ++ str z)%string
  else str z.

Definition lower_ascii (c : ascii) : ascii :=
  let n := N_of_ascii c in
  if ((65 <=? n) && (n <=? 90))%N then ascii_of_N (n + 32) else c.

(** [s.lower()] on ASCII text. *)
Fixpoint lower (s : string) : string :=
  match s with
  | EmptyString => EmptyString
  | String c r => String (lower_ascii c) (lower r)
  end.

(** [''.join(parts)]. *)
Definition join (parts : list string) : string :=
  fold_right append "" parts.

(** The characters of a string, as one-character strings. *)
Fixpoint chars (s : string) : list string :=
  match s with
  | EmptyString => []
  | String c r => String c EmptyString :: chars r
  end.

(** [sum(xs)]. *)
Definition sum (xs : list Z) : Z := fold_left Z.add xs 0.

(** Dictionary lookup [d[k]] on an association list. *)
Fixpoint lookup {V : Type} (k : string) (d : list (string * V)) : option V :=
  match d with
  | [] => None
  | (k', v) :: r => if String.eqb k k' then Some v else lookup k r
  end.

Definition keys {V : Type} (d : list (string * V)) : list string := map fst d.
Definition values {V : Type} (d : list (string * V)) : list V := map snd d.

(* ================================================================== *)
(** ** The random source and the monad of the generator *)

(** The exceptions the generator can raise; [OutOfFuel] is not a Python
    exception, it marks a [while] loop of the model that ran out of fuel. *)
Inductive exn : Type :=
| IndexError
| ValueError
| KeyError
| OutOfFuel.

Inductive result (A : Type) : Type :=
| Ok (a : A)
| Raise (e : exn).
Arguments Ok {A} a.
Arguments Raise {A} e.

(** The random source: a tape of raw draws and the number consumed. *)
Record Rng : Type := mkRng { tape : nat -> Z; pos : nat }.

Definition M (A : Type) : Type := Rng -> result (A * Rng).

Definition ret {A} (a : A) : M A := fun r => Ok (a, r).

Definition bind {A B} (m : M A) (f : A -> M B) : M B :=
  fun r => match m r with
           | Ok (a, r') => f a r'
           | Raise e => Raise e
           end.

Definition raise {A} (e : exn) : M A := fun _ => Raise e.

Declare Scope gen_scope.
Delimit Scope gen_scope with gen.
Notation "x <- m ;; k" := (bind m (fun x => k))
  (at level 61, m at next level, right associativity) : gen_scope.
Notation "' p <- m ;; k" := (bind m (fun x => match x with p => k end))
  (at level 61, p pattern, m at next level, right associativity) : gen_scope.
Local Open Scope gen_scope.

(** One raw draw. *)
Definition draw : M Z :=
  fun r => Ok (tape r (pos r), mkRng (tape r) (S (pos r))).

Definition two53 : Z := 2 ^ 53.

(** [random.random()]: the numerator [k] of the float [k / 2^53]. *)
Definition random : M Z :=
  k <- draw ;; ret (k mod two53).

(** The float returned by [random.random()], as its exact value. *)
Definition unit_value (k : Z) : Q := Qmake k (Z.to_pos two53).

(** [random() < c] and [random() > c] for a float [c]. *)
Definition unit_lt (k : Z) (c : float) : bool :=
  negb (Qle_bool (Q_of_float c) (unit_value k)).
Definition unit_gt (k : Z) (c : float) : bool :=
  negb (Qle_bool (unit_value k) (Q_of_float c)).
Definition unit_le (k : Z) (c : float) : bool :=
  Qle_bool (unit_value k) (Q_of_float c).

(** [random._randbelow(n)]. *)
Definition randbelow (n : Z) : M Z :=
  k <- draw ;; ret (k mod n).

(** [random.randint(a, b)]: [ValueError] on an empty range. *)
Definition randint (a b : Z) : M Z :=
  if b - a + 1 <=? 0 then raise ValueError
  else (k <- randbelow (b - a + 1) ;; ret (a + k)).

(** [seq[i]] for a list. *)
Definition index {A} (xs : list A) (i : Z) : M A :=
  match nth_error xs (Z.to_nat i) with
  | Some x => ret x
  | None => raise IndexError
  end.

(** [random.choice(seq)]: [IndexError] on an empty sequence. *)
Definition choice {A} (xs : list A) : M A :=
  match xs with
  | [] => raise IndexError
  | _ => (i <- randbelow (Z.of_nat (List.length xs)) ;; index xs i)
  end.

(** [itertools.accumulate] on exact weights. *)
Fixpoint accumulate (acc : Q) (ws : list Q) : list Q :=
  match ws with
  | [] => []
  | w :: r => let acc' := (acc + w)%Q in acc' :: accumulate acc' r
  end.

(** [bisect.bisect_right(cum, x, 0, hi)] with [hi = len(cum) - 1], by the
    linear scan that returns the same index on a sorted list: the first
    position below [hi] whose entry exceeds [x], and [hi] otherwise. *)
Fixpoint bisect (cum : list Q) (x : Q) : nat :=
  match cum with
  | [] => 0
  | [_] => 0
  | c :: r => if Qle_bool c x then S (bisect r x) else 0
  end.

(** [random.choices(population, cum_weights=cum, k=1)[0]]: [ValueError]
    when the lengths differ or the total is not positive, [IndexError] on
    [cum[-1]] when there is no weight at all. *)
Definition choices_cum {A} (population : list A) (cum : list Q) : M A :=
  if negb (List.length cum =? List.length population)%nat then raise ValueError
  else
    match cum with
    | [] => raise IndexError
    | _ =>
        let total := last cum 0%Q in
        if Qle_bool total 0 then raise ValueError
        else (k <- random ;;
              index population (Z.of_nat (bisect cum (unit_value k * total)%Q)))
    end.

(** [random.choices(population, weights=weights, k=1)[0]], integer weights. *)
Definition choices_int {A} (population : list A) (weights : list Z) : M A :=
  choices_cum population (accumulate 0 (map inject_Z weights)).

(** Float addition chain of [itertools.accumulate] on float weights. *)
Fixpoint accumulate_float (acc : option float) (ws : list float) : list float :=
  match ws with
  | [] => []
  | w :: r =>
      let acc' := match acc with Some a => PrimFloat.add a w | None => w end in
      acc' :: accumulate_float (Some acc') r
  end.

(** [random.choices(population, weights=weights, k=1)[0]], float weights. *)
Definition choices_float {A} (population : list A) (weights : list float) : M A :=
  choices_cum population (map Q_of_float (accumulate_float None weights)).

(** One element of [random.choices(population, k=n)], no weights:
    [population[floor(random() * len(population))]]. *)
Definition choices_uniform {A} (population : list A) : M A :=
  k <- random ;;
  index population (k * Z.of_nat (List.length population) / two53).

(** [for _ in range(n)], threading a loop state. *)
Fixpoint repeatM {S} (n : nat) (body : S -> M S) (s : S) : M S :=
  match n with
  | O => ret s
  | S n' => (s' <- body s ;; repeatM n' body s')
  end.

(** [for x in xs], threading a loop state. *)
Fixpoint forM {X S} (xs : list X) (body : X -> S -> M S) (s : S) : M S :=
  match xs with
  | [] => ret s
  | x :: r => (s' <- body x s ;; forM r body s')
  end.

(** [[f() for _ in range(n)]]. *)
Fixpoint replicateM {A} (n : nat) (m : M A) : M (list A) :=
  match n with
  | O => ret []
  | S n' => (a <- m ;; r <- replicateM n' m ;; ret (a :: r))
  end.

(* ================================================================== *)
(** ** [datetime]

    The calendar arithmetic of Python's [datetime] module
    ([_ymd2ord], [_ord2ymd], [weekday], [strftime]). *)

Record datetime : Type := mkDatetime { ordinal : Z; seconds : Z }.

Definition _is_leap (year : Z) : bool :=
  (year mod 4 =? 0) && (negb (year mod 100 =? 0) || (year mod 400 =? 0)).

Definition _days_before_year (year : Z) : Z :=
  let y := year - 1 in
  y * 365 + y / 4 - y / 100 + y / 400.

Definition _DAYS_IN_MONTH : list Z :=
  [-1; 31; 28; 31; 30; 31; 30; 31; 31; 30; 31; 30; 31].

Definition _DAYS_BEFORE_MONTH : list Z :=
  [-1; 0; 31; 59; 90; 120; 151; 181; 212; 243; 273; 304; 334].

Definition Z_of_bool (b : bool) : Z := if b then 1 else 0.

Definition _days_before_month (year month : Z) : Z :=
  nth (Z.to_nat month) _DAYS_BEFORE_MONTH 0
  + Z_of_bool ((2 <? month) && _is_leap year).

Definition _ymd2ord (year month day : Z) : Z :=
  _days_before_year year + _days_before_month year month + day.

Definition _DI400Y : Z := _days_before_year 401.
Definition _DI100Y : Z := _days_before_year 101.
Definition _DI4Y : Z := _days_before_year 5.

Definition _ord2ymd (n0 : Z) : Z * Z * Z :=
  let n := n0 - 1 in
  let n400 := n / _DI400Y in
  let n := n mod _DI400Y in
  let year := n400 * 400 + 1 in
  let n100 := n / _DI100Y in
  let n := n mod _DI100Y in
  let n4 := n / _DI4Y in
  let n := n mod _DI4Y in
  let n1 := n / 365 in
  let n := n mod 365 in
  let year := year + n100 * 100 + n4 * 4 + n1 in
  if (n1 =? 4) || (n100 =? 4) then (year - 1, 12, 31)
  else
    let leapyear := (n1 =? 3) && (negb (n4 =? 24) || (n100 =? 3)) in
    let month := Z.shiftr (n + 50) 5 in
    let preceding :=
      nth (Z.to_nat month) _DAYS_BEFORE_MONTH 0
      + Z_of_bool ((2 <? month) && leapyear) in
    if n <? preceding then
      let month := month - 1 in
      let preceding :=
        preceding - (nth (Z.to_nat month) _DAYS_IN_MONTH 0
                     + Z_of_bool ((month =? 2) && leapyear)) in
      (year, month, n - preceding + 1)
    else (year, month, n - preceding + 1).

(** [datetime(year, month, day)]. *)
Definition mk_date (year month day : Z) : datetime :=
  mkDatetime (_ymd2ord year month day) 0.

(** [d + timedelta(days=n)]. *)
Definition add_days (d : datetime) (n : Z) : datetime :=
  mkDatetime (ordinal d + n) (seconds d).

(** [d + timedelta(hours=h, minutes=m)]. *)
Definition add_hours_minutes (d : datetime) (h m : Z) : datetime :=
  let s := seconds d + 3600 * h + 60 * m in
  mkDatetime (ordinal d + s / 86400) (s mod 86400).

(** [a <= b]. *)
Definition datetime_le (a b : datetime) : bool :=
  (ordinal a <? ordinal b)
  || ((ordinal a =? ordinal b) && (seconds a <=? seconds b)).

(** [a == b]. *)
Definition datetime_eqb (a b : datetime) : bool :=
  (ordinal a =? ordinal b) && (seconds a =? seconds b).

(** [d in ds]. *)
Definition datetime_mem (d : datetime) (ds : list datetime) : bool :=
  existsb (datetime_eqb d) ds.

(** [(a - b).days]. *)
Definition days_between (a b : datetime) : Z :=
  (86400 * (ordinal a - ordinal b) + (seconds a - seconds b)) / 86400.

(** [d.weekday()], Monday is 0. *)
Definition weekday (d : datetime) : Z := (ordinal d + 6) mod 7.

(** [d.month]. *)
Definition month (d : datetime) : Z :=
  let '(_, m, _) := _ord2ymd (ordinal d) in m.

(** [d.strftime('%Y-%m-%d')]. *)
Definition strftime_date (d : datetime) : string :=
  let '(y, m, dd) := _ord2ymd (ordinal d) in
  (pad4 y ++ "-" ++ pad2 m ++ "-" ++ pad2 dd)%string.

(** [d.strftime('%Y-%m-%d %H:%M:%S')]. *)
Definition strftime_datetime (d : datetime) : string :=
  let s := seconds d in
  (strftime_date d ++ " " ++ pad2 (s / 3600) ++ ":"
   ++ pad2 (s mod 3600 / 60) ++ ":" ++ pad2 (s mod 60))%string.

(** [z in [1, 2, 3]]. *)
Definition mem_Z (z : Z) (zs : list Z) : bool := existsb (Z.eqb z) zs.

(** The loop of both [generate_auction_dates] functions:
    [while current <= end_date: ...; current += timedelta(days=1)].
    [None] when the fuel runs out before the loop condition fails. *)
Fixpoint auction_dates_loop (fuel : nat) (current end_date : datetime)
    (holidays : list datetime) (dates : list datetime)
    : option (list datetime) :=
  match fuel with
  | O => None
  | S fuel' =>
      if datetime_le current end_date then
        let dates' :=
          if mem_Z (weekday current) [1; 2; 3] then
            if negb (datetime_mem current holidays) then dates ++ [current]
            else dates
          else dates in
        auction_dates_loop fuel' (add_days current 1) end_date holidays dates'
      else Some dates
  end.

(** Fuel for a loop that advances one day per iteration. *)
Definition days_fuel (start_date end_date : datetime) : nat :=
  Z.to_nat (ordinal end_date - ordinal start_date + 2).

(* ================================================================== *)
(** ** Configuration of the CSV profile *)

Set Warnings "-inexact-float".

Definition CATEGORY_DISTRIBUTION : list (string * float) :=
  [("Construction", 0.20%float);
   ("Ag Equipment", 0.25%float);
   ("Truck/Trailer", 0.35%float);
   ("Passenger", 0.20%float)].

Definition WEEK_10_DISTRIBUTION : list (string * float) :=
  [("Construction", 0.15%float);
   ("Ag Equipment", 0.25%float);
   ("Truck/Trailer", 0.30%float);
   ("Passenger", 0.30%float)].

Definition PRICE_RANGES : list (string * (Z * Z)) :=
  [("Construction", (25000, 50000));
   ("Ag Equipment", (15000, 35000));
   ("Truck/Trailer", (8000, 20000));
   ("Passenger", (2000, 8000))].

Definition STATE_DISTRIBUTION : list (string * Z) :=
  [("KS", 3500); ("MO", 3000); ("OK", 2500); ("TX", 2000);
   ("NE", 800); ("IA", 800); ("IL", 800); ("IN", 700); ("OH", 700);
   ("MI", 500); ("WI", 500); ("MN", 500); ("ND", 200); ("SD", 200);
   ("NC", 800); ("GA", 800); ("FL", 800); ("PA", 400); ("VA", 400);
   ("SC", 350); ("NY", 200);
   ("CA", 1200); ("WA", 700); ("OR", 700); ("NV", 400); ("AZ", 400);
   ("CO", 350)].

Definition STATE_TO_REGION : list (string * Z) :=
  [("KS", 1); ("MO", 1); ("OK", 1); ("TX", 1); ("NE", 1); ("IA", 1); ("IL", 1);
   ("IN", 1); ("OH", 1); ("MI", 1); ("WI", 1); ("MN", 1); ("ND", 1); ("SD", 1);
   ("NC", 2); ("GA", 2); ("FL", 2); ("PA", 2); ("VA", 2); ("SC", 2); ("NY", 2);
   ("CA", 3); ("WA", 3); ("OR", 3); ("NV", 3); ("AZ", 3); ("CO", 3)].

Definition BUSINESS_SEGMENT_DISTRIBUTION : list (string * float) :=
  [("Core", 0.50%float); ("Enterprise", 0.15%float); ("Expansion", 0.35%float)].

Definition STATE_CITIES : list (string * list string) :=
  [("KS", ["Wichita"; "Kansas City"; "Topeka"; "Overland Park"]);
   ("MO", ["Kansas City"; "St Louis"; "Springfield"; "Columbia"]);
   ("OK", ["Oklahoma City"; "Tulsa"; "Norman"; "Broken Arrow"]);
   ("TX", ["Dallas"; "Houston"; "Austin"; "San Antonio"]);
   ("NE", ["Omaha"; "Lincoln"; "Bellevue"]);
   ("IA", ["Des Moines"; "Cedar Rapids"; "Davenport"]);
   ("IL", ["Chicago"; "Springfield"; "Peoria"]);
   ("IN", ["Indianapolis"; "Fort Wayne"; "Evansville"]);
   ("OH", ["Columbus"; "Cleveland"; "Cincinnati"]);
   ("MI", ["Detroit"; "Grand Rapids"; "Lansing"]);
   ("WI", ["Milwaukee"; "Madison"; "Green Bay"]);
   ("MN", ["Minneapolis"; "St Paul"; "Rochester"]);
   ("ND", ["Fargo"; "Bismarck"]);
   ("SD", ["Sioux Falls"; "Rapid City"]);
   ("NC", ["Charlotte"; "Raleigh"; "Greensboro"]);
   ("GA", ["Atlanta"; "Savannah"; "Augusta"]);
   ("FL", ["Jacksonville"; "Miami"; "Tampa"; "Orlando"]);
   ("PA", ["Pittsburgh"; "Philadelphia"; "Harrisburg"]);
   ("VA", ["Virginia Beach"; "Richmond"; "Norfolk"]);
   ("SC", ["Charleston"; "Columbia"; "Greenville"]);
   ("NY", ["New York"; "Buffalo"; "Rochester"]);
   ("CA", ["Los Angeles"; "San Francisco"; "San Diego"; "Sacramento"]);
   ("WA", ["Seattle"; "Spokane"; "Tacoma"]);
   ("OR", ["Portland"; "Eugene"; "Salem"]);
   ("NV", ["Las Vegas"; "Reno"]);
   ("AZ", ["Phoenix"; "Tucson"; "Mesa"]);
   ("CO", ["Denver"; "Colorado Springs"; "Aurora"])].

Definition SUBCATEGORIES : list (string * list string) :=
  [("Construction", ["Excavators"; "Dozers"; "Wheel Loaders"; "Skid Steers"]);
   ("Ag Equipment", ["Tractors"; "Combines"; "Planters"; "Harvesters"]);
   ("Truck/Trailer",
    ["Pickup Trucks"; "Semi Tractors"; "Dump Trucks"; "Box Trucks"]);
   ("Passenger", ["Sedans"; "SUVs"; "Minivans"; "Coupes"])].

Definition MAKES_MODELS : list (string * list (string * list string)) :=
  [("Construction",
    [("Caterpillar", ["330"; "349"; "950M"; "962M"; "972M"; "D6"; "D8"; "D9"]);
     ("Komatsu", ["PC210"; "PC290"; "WA470"; "WA500"; "D65"; "D85"; "D155"]);
     ("John Deere", ["210G"; "350G"; "644K"; "724K"; "850K"; "950K"]);
     ("Volvo", ["EC220"; "EC300"; "EC480"; "L120H"; "L150H"; "L220H"])]);
   ("Ag Equipment",
    [("John Deere",
      ["6155R"; "7230R"; "8320R"; "8370R"; "S780"; "S790"; "X9 1100"; "DB60";
       "1775NT"]);
     ("Case IH",
      ["Magnum 280"; "Magnum 340"; "Magnum 380"; "8250"; "9250"; "1255";
       "2150"]);
     ("New Holland", ["T7.270"; "T8.380"; "T9.565"; "CR8.90"; "CR10.90"]);
     ("Massey Ferguson", ["8735"; "8737"])]);
   ("Truck/Trailer",
    [("Ford", ["F-250"; "F-350"; "F-450"]);
     ("Chevrolet", ["Silverado 2500"; "Silverado 3500"]);
     ("Ram", ["2500"; "3500"]);
     ("Peterbilt", ["348"; "389"; "567"; "579"]);
     ("Kenworth", ["T680"; "T880"; "W900"]);
     ("Freightliner", ["Cascadia"; "Columbia"; "Century"])]);
   ("Passenger",
    [("Toyota", ["Camry"; "Corolla"; "RAV4"; "Highlander"]);
     ("Honda", ["Accord"; "Civic"; "CR-V"; "Pilot"]);
     ("Ford", ["Fusion"; "Escape"; "Explorer"]);
     ("Chevrolet", ["Malibu"; "Equinox"; "Traverse"])])].

Definition FEE_TYPES : list (string * Z) :=
  [("Seller Service Fee", 200);
   ("Lot Fee", 150);
   ("Power Washing", 225);
   ("Decal Removal", 100)].

(** The result of a fuelled loop inside the generator. *)
Definition lift_fuel {A} (o : option A) : M A :=
  match o with
  | Some a => ret a
  | None => raise OutOfFuel
  end.

(** [d[k]] inside the generator: [KeyError] on a missing key. *)
Definition getitem {V : Type} (d : list (string * V)) (k : string) : M V :=
  match lookup k d with
  | Some v => ret v
  | None => raise KeyError
  end.

(* ================================================================== *)
(** ** Records of the CSV profile *)

Module Customer.
Record t : Type := mk {
  customer_id : Z;
  first_name : string;
  last_name : string;
  email : string;
  state : string;
  customer_type : string;
  business_segment : option string;
  active : Z
}.
End Customer.

Module Item.
Record t : Type := mk {
  unique_id : Z;
  icn : string;
  auctiondate : string;
  year : Z;
  make : string;
  model : string;
  category : string;
  subcategory : string;
  location_state : string;
  location_city : string;
  starting_bid : Z;
  reserve_price : Z;
  hammer : Z;
  buyers_premium : Z;
  contract_price : Z;
  reserve_met : Z;
  seller_id : Z;
  buyer_id : Z;
  num_bids : Z;
  region_id : Z;
  district_id : Z;
  territory_id : Z;
  business_segment : option string
}.
End Item.

Module Bid.
Record t : Type := mk {
  bid_id : Z;
  item_id : Z;
  bidder_id : Z;
  bid_amount : Z;
  bid_timestamp : string;
  is_winning_bid : Z
}.
End Bid.

Module Fee.
Record t : Type := mk {
  fee_id : Z;
  item_id : Z;
  fee_type : string;
  fee_amount : Z
}.
End Fee.

(* ================================================================== *)
(** ** Helper functions of the CSV profile *)

Definition start_date : datetime := mk_date 2025 8 1.
Definition end_date : datetime := mk_date 2025 12 31.

(** The holidays skipped by the CSV profile: Thanksgiving and Christmas. *)
Definition holidays : list datetime :=
  [mk_date 2025 11 27; mk_date 2025 12 25].

(** [generate_auction_dates()] of the CSV profile. *)
Definition generate_auction_dates : option (list datetime) :=
  auction_dates_loop (days_fuel start_date end_date)
    start_date end_date holidays [].

(** [get_week_number(date)]. *)
Definition get_week_number (date : datetime) : Z :=
  let start := mk_date 2025 8 1 in
  days_between date start / 7 + 1.

(** [items_per_day(date)]. *)
Definition items_per_day (date : datetime) : M Z :=
  let week := get_week_number date in
  if week =? 15 then randint 180 220
  else if month date =? 12 then randint 750 900
  else randint 280 350.

(** [get_category_distribution(date)]. *)
Definition get_category_distribution (date : datetime)
    : list (string * float) :=
  let week := get_week_number date in
  if week =? 10 then WEEK_10_DISTRIBUTION else CATEGORY_DISTRIBUTION.

(** [generate_icn()]. *)
Definition generate_icn : M string :=
  letters <- replicateM 2 (choices_uniform (chars "ABCDEFGHIJKLMNOPQRSTUVWXYZ")) ;;
  numbers <- replicateM 4 (choices_uniform (chars "0123456789")) ;;
  ret (join letters ++ join numbers)%string.

Definition first_names : list string :=
  ["John"; "Michael"; "David"; "James"; "Robert"; "William"; "Richard";
   "Thomas"; "Mary"; "Patricia"; "Jennifer"; "Linda"; "Elizabeth"; "Susan";
   "Jessica"; "Sarah"; "Mark"; "Donald"; "Steven"; "Paul"; "Andrew";
   "Joshua"; "Kevin"; "Brian"; "Karen"; "Nancy"; "Betty"; "Helen"; "Sandra";
   "Donna"; "Carol"; "Ruth"].

Definition last_names : list string :=
  ["Smith"; "Johnson"; "Williams"; "Brown"; "Jones"; "Garcia"; "Miller";
   "Davis"; "Rodriguez"; "Martinez"; "Hernandez"; "Lopez"; "Gonzalez";
   "Wilson"; "Anderson"; "Thomas"; "Taylor"; "Moore"; "Jackson"; "Martin";
   "Lee"; "Thompson"; "White"; "Harris"; "Clark"; "Lewis"; "Robinson";
   "Walker"; "Young"; "Allen"; "King"].

(** [generate_customer_name()]. *)
Definition generate_customer_name : M (string * string) :=
  f <- choice first_names ;;
  l <- choice last_names ;;
  ret (f, l).

(** [pick_weighted_state()]. *)
Definition pick_weighted_state : M string :=
  let states := keys STATE_DISTRIBUTION in
  let weights := values STATE_DISTRIBUTION in
  choices_int states weights.

(** [get_region_district_territory(state)]. *)
Definition get_region_district_territory (state : string) : M (Z * Z * Z) :=
  region_id <- getitem STATE_TO_REGION state ;;
  let district_base := (region_id - 1) * 4 in
  district_id <- randint (district_base + 1) (district_base + 4) ;;
  let territory_base := (district_id - 1) * 8 in
  territory_id <- randint (territory_base + 1) (territory_base + 8) ;;
  ret (region_id, district_id, territory_id).

(** [s.get('business_segment') == seg]. *)
Definition has_segment (seg : string) (s : Customer.t) : bool :=
  match Customer.business_segment s with
  | Some x => String.eqb x seg
  | None => false
  end.

Definition nonempty {A} (xs : list A) : bool :=
  match xs with [] => false | _ => true end.

(** [pick_seller_for_category(sellers, category)].  The [and] of the
    conditions is short-circuit: no draw is made when the preferred pool
    is empty. *)
Definition pick_seller_for_category (sellers : list Customer.t)
    (category : string) : M Customer.t :=
  if String.eqb category "Construction" then
    let enterprise_sellers := filter (has_segment "Enterprise") sellers in
    if nonempty enterprise_sellers then
      (k <- random ;;
       if unit_lt k 0.70%float then choice enterprise_sellers
       else choice sellers)
    else choice sellers
  else if String.eqb category "Passenger" then
    let core_sellers := filter (has_segment "Core") sellers in
    if nonempty core_sellers then
      (k <- random ;;
       if unit_lt k 0.60%float then choice core_sellers
       else choice sellers)
    else choice sellers
  else choice sellers.

(* ================================================================== *)
(** ** [generate_customers] *)

(** [x in xs] for strings. *)
Definition mem_string (x : string) (xs : list string) : bool :=
  existsb (String.eqb x) xs.

(** The e-mail address of a customer record. *)
Definition email_of (first last : string) (n : Z) : string :=
  (lower first ++ "." ++ lower last ++ str n ++ "@email.com")%string.

(** The body of the first loop of [generate_customers]: one buyer. *)
Definition generate_buyer (acc : list Customer.t * Z)
    : M (list Customer.t * Z) :=
  let '(customers, customer_id) := acc in
  '(first, last) <- generate_customer_name ;;
  state <- pick_weighted_state ;;
  n <- randint 1 999 ;;
  ret (customers ++ [Customer.mk customer_id first last (email_of first last n)
                       state "buyer" None 1],
       customer_id + 1).

(** The body of the second and third loops: one seller, or one customer
    who is both, with a business segment. *)
Definition generate_seller (customer_type : string)
    (acc : list Customer.t * Z) : M (list Customer.t * Z) :=
  let '(customers, customer_id) := acc in
  '(first, last) <- generate_customer_name ;;
  state <- pick_weighted_state ;;
  business_segment <-
    choices_float (keys BUSINESS_SEGMENT_DISTRIBUTION)
                  (values BUSINESS_SEGMENT_DISTRIBUTION) ;;
  n <- randint 1 999 ;;
  ret (customers ++ [Customer.mk customer_id first last (email_of first last n)
                       state customer_type (Some business_segment) 1],
       customer_id + 1).

(** [generate_customers()]. *)
Definition generate_customers : M (list Customer.t) :=
  acc <- repeatM 2000 generate_buyer ([], 1) ;;
  acc <- repeatM 500 (generate_seller "seller") acc ;;
  acc <- repeatM 150 (generate_seller "both") acc ;;
  ret (fst acc).

(* ================================================================== *)
(** ** [generate_items_bids_fees] *)

(** The local variables of [generate_items_bids_fees] that the loops
    update. *)
Record GenState : Type := mkGen {
  items : list Item.t;
  bids : list Bid.t;
  fees : list Fee.t;
  item_id : Z;
  bid_id : Z;
  fee_id : Z;
  items_by_state : list (string * Z)
}.

(** [items_by_state[s]] on the [defaultdict(int)]: 0 for a missing key. *)
Definition count_of (s : string) (d : list (string * Z)) : Z :=
  match lookup s d with
  | Some n => n
  | None => 0
  end.

(** [items_by_state[s] += 1]. *)
Fixpoint incr (s : string) (d : list (string * Z)) : list (string * Z) :=
  match d with
  | [] => [(s, 1)]
  | (k, n) :: r => if String.eqb s k then (k, n + 1) :: r else (k, n) :: incr s r
  end.

(** [{s: max(0, target - items_by_state[s])
      for s, target in target_by_state.items()}]. *)
Definition remaining_states (target_by_state items_by_state : list (string * Z))
    : list (string * Z) :=
  map (fun '(s, target) => (s, Z.max 0 (target - count_of s items_by_state)))
      target_by_state.

(** The state draw of the item loop: weighted by remaining quota, and by
    the base distribution once every quota is met. *)
Definition pick_state (items_by_state : list (string * Z)) : M string :=
  let target_by_state := STATE_DISTRIBUTION in
  let remaining := remaining_states target_by_state items_by_state in
  if sum (values remaining) =? 0 then pick_weighted_state
  else
    let states := keys remaining in
    let weights := values remaining in
    choices_int states weights.

(** [range(n)]. *)
Definition range (n : Z) : list Z := map Z.of_nat (seq 0 (Z.to_nat n)).

(** The loop variables of the bid loop. *)
Definition BidAcc : Type := (Z * list Bid.t * Z)%type.

(** The body of [for bid_num in range(num_bids)]. *)
Definition bid_body (buyers : list Customer.t) (buyer : Customer.t)
    (hammer num_bids : Z) (auction_date : datetime) (item_id : Z)
    (bid_num : Z) (acc : BidAcc) : M BidAcc :=
  let '(current_bid, bids, bid_id) := acc in
  bidder <- choice buyers ;;
  increment <- randint 100 1000 ;;
  let current_bid := current_bid + increment in
  let is_winning := if bid_num =? num_bids - 1 then 1 else 0 in
  let current_bid := if is_winning =? 0 then current_bid else hammer in
  let bidder_id :=
    if is_winning =? 0 then Customer.customer_id bidder
    else Customer.customer_id buyer in
  hours <- randint 8 17 ;;
  minutes <- randint 0 59 ;;
  let bid_time := add_hours_minutes auction_date hours minutes in
  ret (current_bid,
       bids ++ [Bid.mk bid_id item_id bidder_id current_bid
                  (strftime_datetime bid_time) is_winning],
       bid_id + 1).

(** The fee records of one item. *)
Definition fee_body (item_id : Z) (acc : list Fee.t * Z) : M (list Fee.t * Z) :=
  let '(fees, fee_id) := acc in
  amount <- getitem FEE_TYPES "Seller Service Fee" ;;
  let fees := fees ++ [Fee.mk fee_id item_id "Seller Service Fee" amount] in
  let fee_id := fee_id + 1 in
  amount <- getitem FEE_TYPES "Lot Fee" ;;
  let fees := fees ++ [Fee.mk fee_id item_id "Lot Fee" amount] in
  let fee_id := fee_id + 1 in
  k <- random ;;
  '(fees, fee_id) <-
    (if unit_lt k 0.60%float then
       (amount <- getitem FEE_TYPES "Power Washing" ;;
        ret (fees ++ [Fee.mk fee_id item_id "Power Washing" amount], fee_id + 1))
     else ret (fees, fee_id)) ;;
  k <- random ;;
  if unit_lt k 0.20%float then
    (amount <- getitem FEE_TYPES "Decal Removal" ;;
     ret (fees ++ [Fee.mk fee_id item_id "Decal Removal" amount], fee_id + 1))
  else ret (fees, fee_id).

(** The item record of one iteration (from the city draw to the [item]
    dictionary), with the buyer dictionary the bid loop reads. *)
Definition item_record (sellers buyers : list Customer.t)
    (date_str : string) (item_id : Z) (category state : string)
    : M (Item.t * Customer.t) :=
  cities <- getitem STATE_CITIES state ;;
  city <- choice cities ;;
  subcategories <- getitem SUBCATEGORIES category ;;
  subcategory <- choice subcategories ;;
  makes <- getitem MAKES_MODELS category ;;
  '(make, models) <- choice makes ;;
  model <- choice models ;;
  '(min_price, max_price) <- getitem PRICE_RANGES category ;;
  starting_bid <-
    randint (int_of_float (float_of_int min_price * 0.5))
            (int_of_float (float_of_int min_price * 0.8)) ;;
  reserve_price <-
    randint (int_of_float (float_of_int min_price * 0.7))
            (int_of_float (float_of_int min_price * 0.9)) ;;
  hammer <- randint min_price max_price ;;
  let reserve_met := if reserve_price <=? hammer then 1 else 0 in
  let buyers_premium := int_of_float (float_of_int hammer * 0.10) in
  let contract_price := hammer + buyers_premium in
  '(region_id, district_id, territory_id) <-
    get_region_district_territory state ;;
  seller <- pick_seller_for_category sellers category ;;
  buyer <- choice buyers ;;
  icn <- generate_icn ;;
  year <- randint 1990 2024 ;;
  num_bids <- randint 1 15 ;;
  ret (Item.mk item_id icn date_str year make model category subcategory
         state city starting_bid reserve_price hammer buyers_premium
         contract_price reserve_met (Customer.customer_id seller)
         (Customer.customer_id buyer) num_bids region_id district_id
         territory_id (Customer.business_segment seller),
       buyer).

(** The body of [for _ in range(num_items)]: one item, its bids and its
    fees. *)
Definition item_body (sellers buyers : list Customer.t)
    (auction_date : datetime) (category_dist : list (string * float))
    (date_str : string) (st : GenState) : M GenState :=
  category <- choices_float (keys category_dist) (values category_dist) ;;
  state <- pick_state (items_by_state st) ;;
  let items_by_state := incr state (items_by_state st) in
  '(item, buyer) <-
    item_record sellers buyers date_str (item_id st) category state ;;
  let items := items st ++ [item] in
  let num_bids := Item.num_bids item in
  '(_, bids, bid_id) <-
    forM (range num_bids)
         (bid_body buyers buyer (Item.hammer item) num_bids auction_date
                   (item_id st))
         (Item.starting_bid item, bids st, bid_id st) ;;
  '(fees, fee_id) <- fee_body (item_id st) (fees st, fee_id st) ;;
  ret (mkGen items bids fees (item_id st + 1) bid_id fee_id items_by_state).

(** The body of [for auction_date in auction_dates]. *)
Definition day_body (sellers buyers : list Customer.t)
    (auction_date : datetime) (st : GenState) : M GenState :=
  num_items <- items_per_day auction_date ;;
  let category_dist := get_category_distribution auction_date in
  let date_str := strftime_date auction_date in
  repeatM (Z.to_nat num_items)
          (item_body sellers buyers auction_date category_dist date_str) st.

Definition initial_state : GenState := mkGen [] [] [] 1 1 1 [].

Definition is_seller (c : Customer.t) : bool :=
  mem_string (Customer.customer_type c) ["seller"; "both"].
Definition is_buyer (c : Customer.t) : bool :=
  mem_string (Customer.customer_type c) ["buyer"; "both"].

(** The loops of [generate_items_bids_fees] over given auction dates. *)
Definition generate_over (auction_dates : list datetime)
    (customers : list Customer.t) : M GenState :=
  let sellers := filter is_seller customers in
  let buyers := filter is_buyer customers in
  forM auction_dates (day_body sellers buyers) initial_state.

(** [generate_items_bids_fees(customers)]. *)
Definition generate_items_bids_fees (customers : list Customer.t)
    : M (list Item.t * list Bid.t * list Fee.t) :=
  auction_dates <- lift_fuel generate_auction_dates ;;
  st <- generate_over auction_dates customers ;;
  ret (items st, bids st, fees st).

(** The four tables [main()] hands to the CSV writer. *)
Record Output : Type := mkOutput {
  out_customers : list Customer.t;
  out_items : list Item.t;
  out_bids : list Bid.t;
  out_fees : list Fee.t
}.

(** [main()], up to the calls of [write_csv]. *)
Definition main : M Output :=
  customers <- generate_customers ;;
  '(items, bids, fees) <- generate_items_bids_fees customers ;;
  ret (mkOutput customers items bids fees).



(* ================================================================== *)
(** ** The database profile: [generate_mock_auction_data.py] *)

Module Mock.

Record CatInfo : Type := mkCat {
  models : list string;
  price_range : Z * Z;
  volume_pct : float
}.

Definition CATEGORIES : list (string * CatInfo) :=
  [("Construction",
    mkCat ["D9"; "PC490"; "624K"; "EC220"; "950M"; "ZX350"; "850M"]
          (25000, 50000) 0.20%float);
   ("Ag Equipment",
    mkCat ["8735"; "S780"; "M7-172"; "CR8.90"; "DB60"; "9250"]
          (15000, 35000) 0.25%float);
   ("Truck/Trailer",
    mkCat ["T680"; "T880"; "567"; "W900"; "Cascadia"; "VNL"]
          (8000, 20000) 0.35%float);
   ("Passenger",
    mkCat ["F-150"; "Silverado"; "Ram 1500"; "Accord"; "Camry"; "Civic"]
          (2000, 8000) 0.20%float)].

(** The dictionary returned by [generate_fees]. *)
Record Fees : Type := mkFees {
  seller_service_fee : Z;
  lot_fee : Z;
  power_washing : Z;
  decal_removal : Z;
  total_fees : Z;
  contract_price : float
}.

(** [generate_fees(hammer_price)]. *)
Definition generate_fees (hammer_price : Z) : M Fees :=
  let seller_service_fee := 200 in
  let lot_fee := 150 in
  k <- random ;;
  let power_washing := if unit_gt k 0.6%float then 225 else 0 in
  k <- random ;;
  let decal_removal := if unit_gt k 0.8%float then 100 else 0 in
  let total_fees := seller_service_fee + lot_fee + power_washing + decal_removal in
  let contract_price :=
    (float_of_int hammer_price + float_of_int hammer_price * 0.10)%float in
  ret (mkFees seller_service_fee lot_fee power_washing decal_removal
         total_fees contract_price).

(** [generate_auction_dates()] of the database profile: no holiday is
    skipped. *)
Definition generate_auction_dates : option (list datetime) :=
  let start_date := mk_date 2025 8 1 in
  let end_date := mk_date 2025 12 31 in
  auction_dates_loop (days_fuel start_date end_date)
    start_date end_date [] [].

(** [items_per_day(date)]. *)
Definition items_per_day (date : datetime) : M Z :=
  if month date =? 12 then randint 600 1200 else randint 200 300.

(** [get_category_mix(week_number)]. *)
Definition get_category_mix (week_number : Z) : list (string * float) :=
  if week_number =? 10 then
    [("Construction", 0.15%float); ("Ag Equipment", 0.20%float);
     ("Truck/Trailer", 0.35%float); ("Passenger", 0.30%float)]
  else if week_number =? 15 then
    [("Construction", 0.18%float); ("Ag Equipment", 0.22%float);
     ("Truck/Trailer", 0.38%float); ("Passenger", 0.22%float)]
  else
    [("Construction", 0.20%float); ("Ag Equipment", 0.25%float);
     ("Truck/Trailer", 0.35%float); ("Passenger", 0.20%float)].

(** A row inserted into [itemsbasics]. *)
Record Row : Type := mkRow {
  unique_id : string;
  auctiondate : datetime;
  icn : string;
  model : string;
  category : string;
  hammer : Z;
  row_contract_price : float;
  row_seller_service_fee : Z;
  row_lot_fee : Z;
  row_power_washing : Z;
  row_decal_removal : Z;
  row_total_fees : Z
}.

(** The week tracker at the head of the date loop:
    [if current_week_start is None or
        (auction_date - current_week_start).days >= 7: ...]. *)
Definition track_week (auction_date : datetime)
    (w : Z * option datetime) : Z * option datetime :=
  let '(week_number, current_week_start) := w in
  match current_week_start with
  | None => (week_number + 1, Some auction_date)
  | Some start =>
      if 7 <=? days_between auction_date start
      then (week_number + 1, Some auction_date)
      else (week_number, current_week_start)
  end.

(** The week number the tracker assigns to each date of a calendar. *)
Fixpoint tracked_weeks (dates : list datetime) (w : Z * option datetime)
    : list (datetime * Z) :=
  match dates with
  | [] => []
  | d :: r => let w' := track_week d w in (d, fst w') :: tracked_weeks r w'
  end.

(** The category selection loop:
    [for category, pct in mix.items(): cumulative += pct; ...; break]. *)
Fixpoint select_category (rand : Z) (cumulative : float)
    (mix : list (string * float)) : option string :=
  match mix with
  | [] => None
  | (category, pct) :: r =>
      let cumulative := (cumulative + pct)%float in
      if unit_le rand cumulative then Some category
      else select_category rand cumulative r
  end.

(** The body of [for _ in range(num_items)]. *)
Definition item_body (auction_date : datetime) (mix : list (string * float))
    (acc : list Row * Z) : M (list Row * Z) :=
  let '(rows, item_id) := acc in
  rand <- random ;;
  let selected_category :=
    match select_category rand 0%float mix with
    | Some c => c
    | None => "Passenger"
    end in
  cat_info <- getitem CATEGORIES selected_category ;;
  model <- choice (models cat_info) ;;
  hammer_price <- randint (fst (price_range cat_info)) (snd (price_range cat_info)) ;;
  fees <- generate_fees hammer_price ;;
  l1 <- choice (chars "ABCDEFGHIJKLMNOPQRSTUVWXYZ") ;;
  l2 <- choice (chars "ABCDEFGHIJKLMNOPQRSTUVWXYZ") ;;
  n <- randint 1000 9999 ;;
  let icn := (l1 ++ l2 ++ str n)%string in
  ret (rows ++ [mkRow (str item_id) auction_date icn model selected_category
                  hammer_price (contract_price fees)
                  (seller_service_fee fees) (lot_fee fees)
                  (power_washing fees) (decal_removal fees)
                  (total_fees fees)],
       item_id + 1).

(** The loop variables of the date loop. *)
Record LoopState : Type := mkLoop {
  rows : list Row;
  item_id : Z;
  week : Z * option datetime
}.

(** The body of [for auction_date in dates]. *)
Definition day_body (auction_date : datetime) (st : LoopState) : M LoopState :=
  let week := track_week auction_date (week st) in
  let mix := get_category_mix (fst week) in
  num_items <- items_per_day auction_date ;;
  '(rows, item_id) <-
    repeatM (Z.to_nat num_items) (item_body auction_date mix)
            (rows st, item_id st) ;;
  ret (mkLoop rows item_id week).

(** The generation part of the script: the rows handed to the database,
    in insertion order. *)
Definition generate_rows : M (list Row) :=
  dates <- lift_fuel generate_auction_dates ;;
  st <- forM dates day_body (mkLoop [] 1 (0, None)) ;;
  ret (rows st).

End Mock.

(* ================================================================== *)
(** * Specifications *)

(** [Returns m Q]: on every random source the computation [m] raises no
    exception and its value satisfies [Q]. *)
Definition Returns {A} (m : M A) (Q : A -> Prop) : Prop :=
  forall r, exists a r', m r = Ok (a, r') /\ Q a.

(** Two random sources that will deliver the same draws. *)
Definition agree (r1 r2 : Rng) : Prop :=
  pos r1 = pos r2 /\ forall n, tape r1 n = tape r2 n.

(** [Det m]: the outcome of [m] depends on the random source only
    through the draws it delivers. *)
Definition Det {A} (m : M A) : Prop :=
  forall r1 r2, agree r1 r2 ->
    match m r1, m r2 with
    | Ok (a1, r1'), Ok (a2, r2') => a1 = a2 /\ agree r1' r2'
    | Raise e1, Raise e2 => e1 = e2
    | _, _ => False
    end.

(** The bids of a bid table that belong to an item, in emission order. *)
Definition bids_of (it : Item.t) (bs : list Bid.t) : list Bid.t :=
  filter (fun b => Bid.item_id b =? Item.unique_id it) bs.

(** The fees of a fee table that belong to an item, in emission order. *)
Definition fees_of (it : Item.t) (fs : list Fee.t) : list Fee.t :=
  filter (fun f => Fee.item_id f =? Item.unique_id it) fs.

(** A sequence of amounts that starts above [lo] and rises by an
    increment in [[100, 1000]] at every step. *)
Fixpoint rising (lo : Z) (amounts : list Z) : Prop :=
  match amounts with
  | [] => True
  | a :: r => lo + 100 <= a <= lo + 1000 /\ rising a r
  end.

(** Strictly increasing sequence of integers. *)
Fixpoint increasing (xs : list Z) : Prop :=
  match xs with
  | [] => True
  | x :: r => match r with [] => True | y :: _ => x < y end /\ increasing r
  end.

(** An integer nearest to [h / 10], whatever the rule for ties: what
    "round(h * 0.10)" asks of the buyer's premium. *)
Definition nearest_tenth (h p : Z) : Prop := Z.abs (10 * p - h) <= 5.

(** The draw of a random source at the cursor, as [random.random()]
    reads it. *)
Definition next_unit (r : Rng) : Z := tape r (pos r) mod two53.

(** The random source after [n] draws. *)
Definition skip (n : nat) (r : Rng) : Rng := mkRng (tape r) (pos r + n).

(** A random source that delivers the listed draws, then [d] forever. *)
Definition tape_of (draws : list Z) (d : Z) : Rng :=
  mkRng (fun n => nth n draws d) 0.

(** The sum of exact weights. *)
Definition sumQ (ws : list Q) : Q := fold_right Qplus 0%Q ws.

(** [p] holds of the [n] integers from [lo] on. *)
Fixpoint all_from (n : nat) (lo : Z) (p : Z -> bool) : bool :=
  match n with
  | O => true
  | S n' => p lo && all_from n' (lo + 1) p
  end.

(** The categories of both category distributions. *)
Definition categories : list string :=
  ["Construction"; "Ag Equipment"; "Truck/Trailer"; "Passenger"].

(** What the generator fixes of an item's price fields and bid count. *)
Definition item_ok (it : Item.t) : Prop :=
  Item.buyers_premium it = Item.hammer it / 10 /\
  Item.contract_price it = Item.hammer it + Item.buyers_premium it /\
  Item.reserve_met it = (if Item.reserve_price it <=? Item.hammer it then 1 else 0) /\
  2000 <= Item.hammer it <= 50000 /\
  Item.starting_bid it < Item.hammer it /\
  1 <= Item.num_bids it <= 15.

(** The shape of the bids of one item, in emission order: bids that do
    not win, each above the previous amount (the first above [lo]) by an
    increment in [[100, 1000]], then one winning bid at the hammer price
    from the item's buyer. *)
Fixpoint bid_run (hammer buyer_id lo : Z) (bs : list Bid.t) : Prop :=
  match bs with
  | [] => False
  | b :: r =>
      match r with
      | [] => Bid.is_winning_bid b = 1 /\ Bid.bid_amount b = hammer
              /\ Bid.bidder_id b = buyer_id
      | _ :: _ => Bid.is_winning_bid b = 0
                  /\ lo + 100 <= Bid.bid_amount b <= lo + 1000
                  /\ bid_run hammer buyer_id (Bid.bid_amount b) r
      end
  end.

(** The number of items of a list located in a state. *)
Definition placed (its : list Item.t) (s : string) : Z :=
  Z.of_nat (List.length (filter (fun i => String.eqb (Item.location_state i) s) its)).

(** Some state has received fewer items than its target. *)
Definition quota_open (count : string -> Z) : Prop :=
  exists s target, In (s, target) STATE_DISTRIBUTION /\ count s < target.

(** Every item was placed in a state whose quota was open when it was
    drawn, unless no quota was open any more. *)
Definition quota_respected (its : list Item.t) : Prop :=
  forall pre it post, its = pre ++ it :: post ->
    quota_open (placed pre) ->
    exists target, In (Item.location_state it, target) STATE_DISTRIBUTION
                   /\ placed pre (Item.location_state it) < target.

(** The fee records of an item, from the two unit draws [k1] and [k2] of
    the optional fees. *)
Definition fee_records (item_id fee_id k1 k2 : Z) : list Fee.t :=
  let washing := unit_lt k1 0.60 in
  [Fee.mk fee_id item_id "Seller Service Fee" 200;
   Fee.mk (fee_id + 1) item_id "Lot Fee" 150]
  ++ (if washing then [Fee.mk (fee_id + 2) item_id "Power Washing" 225] else [])
  ++ (if unit_lt k2 0.20
      then [Fee.mk (if washing then fee_id + 3 else fee_id + 2) item_id
              "Decal Removal" 100]
      else []).

(** One iteration of the item loop, as a relation between the loop
    variables before and after. *)
Definition step_ok (st st' : GenState) : Prop :=
  exists it new_bids new_fees,
    items st' = items st ++ [it] /\
    bids st' = bids st ++ new_bids /\
    fees st' = fees st ++ new_fees /\
    item_id st' = item_id st + 1 /\
    Item.unique_id it = item_id st /\
    item_ok it /\
    Forall (fun b => Bid.item_id b = item_id st) new_bids /\
    bid_run (Item.hammer it) (Item.buyer_id it) (Item.starting_bid it) new_bids /\
    Z.of_nat (List.length new_bids) = Item.num_bids it /\
    items_by_state st' = incr (Item.location_state it) (items_by_state st) /\
    (exists fee_id k1 k2, new_fees = fee_records (item_id st) fee_id k1 k2) /\
    exists target,
      In (Item.location_state it, target) STATE_DISTRIBUTION /\
      (quota_open (fun s => count_of s (items_by_state st)) ->
       count_of (Item.location_state it) (items_by_state st) < target).

(** The invariant of the item loop. *)
Definition Inv (st : GenState) : Prop :=
  (forall it, In it (items st) -> Item.unique_id it < item_id st) /\
  (forall b, In b (bids st) -> Bid.item_id b < item_id st) /\
  (forall it, In it (items st) ->
     item_ok it /\
     bid_run (Item.hammer it) (Item.buyer_id it) (Item.starting_bid it)
             (bids_of it (bids st)) /\
     Z.of_nat (List.length (bids_of it (bids st))) = Item.num_bids it) /\
  (forall s, count_of s (items_by_state st) = placed (items st) s) /\
  quota_respected (items st) /\
  (forall f, In f (fees st) -> Fee.item_id f < item_id st) /\
  (forall it, In it (items st) ->
     exists fee_id k1 k2,
       fees_of it (fees st) = fee_records (Item.unique_id it) fee_id k1 k2).

(** A customer table with one buyer and one seller. *)
Definition example_customers : list Customer.t :=
  [Customer.mk 1 "Mary" "Smith" "mary.smith1@email.com" "KS" "buyer" None 1;
   Customer.mk 2 "John" "Brown" "john.brown2@email.com" "MO" "seller"
               (Some "Core") 1].

(** The winning bids of a list. *)
Definition winning (bs : list Bid.t) : list Bid.t :=
  filter (fun b => Bid.is_winning_bid b =? 1) bs.

(** The [n] consecutive days from [start] on. *)
Definition days_from (start : datetime) (n : nat) : list datetime :=
  map (fun k => add_days start (Z.of_nat k)) (seq 0 n).

(** A Tuesday, Wednesday or Thursday that is not a holiday. *)
Definition is_auction_day (holidays : list datetime) (d : datetime) : bool :=
  mem_Z (weekday d) [1; 2; 3] && negb (datetime_mem d holidays).

(** Dates in chronological order, without repetition. *)
Definition chronological (dates : list datetime) : Prop :=
  StronglySorted (fun a b => ordinal a < ordinal b) dates.

(** The week index of the specification:
    [floor((date - epoch).days / 7) + 1]. *)
Definition week_index (date epoch : datetime) : Z :=
  days_between date epoch / 7 + 1.

(** The fee dictionary of the database profile adds up. *)
Definition fees_ok (f : Mock.Fees) : Prop :=
  Mock.total_fees f
    = Mock.seller_service_fee f + Mock.lot_fee f
      + Mock.power_washing f + Mock.decal_removal f /\
  Mock.seller_service_fee f = 200 /\
  Mock.lot_fee f = 150 /\
  (Mock.power_washing f = 225 \/ Mock.power_washing f = 0) /\
  (Mock.decal_removal f = 100 \/ Mock.decal_removal f = 0).

(** The fee columns of a row of the database profile add up. *)
Definition row_ok (row : Mock.Row) : Prop :=
  Mock.row_total_fees row
    = Mock.row_seller_service_fee row + Mock.row_lot_fee row
      + Mock.row_power_washing row + Mock.row_decal_removal row /\
  Mock.row_seller_service_fee row = 200 /\
  Mock.row_lot_fee row = 150 /\
  (Mock.row_power_washing row = 225 \/ Mock.row_power_washing row = 0) /\
  (Mock.row_decal_removal row = 100 \/ Mock.row_decal_removal row = 0).

(* ------------------------------------------------------------------ *)
(** ** The monad *)

Section MonadFacts.

Context {A B : Type}.

Lemma returns_ret (a : A) (Q : A -> Prop) : Q a -> Returns (ret a) Q.
Proof. intros H r. exists a, r. split; [reflexivity | exact H]. Qed.

Lemma returns_bind (m : M A) (f : A -> M B) (P : A -> Prop) (Q : B -> Prop) :
  Returns m P -> (forall a, P a -> Returns (f a) Q) -> Returns (bind m f) Q.
Proof.
  intros Hm Hf r. destruct (Hm r) as (a & r1 & E & Pa).
  destruct (Hf a Pa r1) as (b & r2 & E2 & Qb).
  exists b, r2. unfold bind. rewrite E. auto.
Qed.

Lemma returns_weaken (m : M A) (P Q : A -> Prop) :
  Returns m P -> (forall a, P a -> Q a) -> Returns m Q.
Proof.
  intros Hm HPQ r. destruct (Hm r) as (a & r1 & E & Pa). eauto.
Qed.

Lemma returns_value (m : M A) (Q : A -> Prop) r a r' :
  Returns m Q -> m r = Ok (a, r') -> Q a.
Proof.
  intros Hm E. destruct (Hm r) as (a' & r1 & E' & Qa).
  rewrite E in E'. inversion E'; subst. exact Qa.
Qed.

Lemma det_ret (a : A) : Det (ret a).
Proof. intros r1 r2 H. simpl. auto. Qed.

Lemma det_raise (e : exn) : Det (@raise A e).
Proof. intros r1 r2 H. reflexivity. Qed.

Lemma det_bind (m : M A) (f : A -> M B) :
  Det m -> (forall a, Det (f a)) -> Det (bind m f).
Proof.
  intros Hm Hf r1 r2 H. unfold bind. specialize (Hm r1 r2 H).
  destruct (m r1) as [[a1 s1]|e1], (m r2) as [[a2 s2]|e2]; try tauto.
  destruct Hm as [-> Hs]. apply Hf, Hs.
Qed.

End MonadFacts.

Lemma det_draw : Det draw.
Proof.
  intros r1 r2 [Hp Ht]. unfold draw. split.
  - rewrite Hp. apply Ht.
  - split; simpl; [now rewrite Hp | exact Ht].
Qed.

Lemma random_run r : random r = Ok (next_unit r, skip 1 r).
Proof.
  unfold random, bind, draw, ret, next_unit, skip.
  now rewrite Nat.add_1_r.
Qed.

Lemma skip_skip a b r : skip a (skip b r) = skip (b + a) r.
Proof. unfold skip. simpl. now rewrite Nat.add_assoc. Qed.

Lemma next_unit_range r : 0 <= next_unit r < two53.
Proof. unfold next_unit. apply Z.mod_pos_bound. reflexivity. Qed.

Lemma returns_random : Returns random (fun k => 0 <= k < two53).
Proof.
  intro r. rewrite random_run. eexists _, _. split; [reflexivity|].
  apply next_unit_range.
Qed.

Lemma returns_randbelow n :
  0 < n -> Returns (randbelow n) (fun k => 0 <= k < n).
Proof.
  intros Hn r. unfold randbelow, bind, draw, ret.
  eexists _, _. split; [reflexivity|]. now apply Z.mod_pos_bound.
Qed.

Lemma returns_randint a b :
  a <= b -> Returns (randint a b) (fun v => a <= v <= b).
Proof.
  intros Hab. unfold randint.
  destruct (Z.leb_spec (b - a + 1) 0); [lia|].
  eapply returns_bind; [apply returns_randbelow; lia|].
  intros k Hk. cbv beta in Hk. apply returns_ret. lia.
Qed.

Lemma returns_index {A} (xs : list A) i :
  0 <= i < Z.of_nat (List.length xs) ->
  Returns (index xs i) (fun x => nth_error xs (Z.to_nat i) = Some x).
Proof.
  intros Hi. unfold index.
  destruct (nth_error xs (Z.to_nat i)) eqn:E.
  - now apply returns_ret.
  - apply nth_error_None in E. lia.
Qed.

Lemma returns_choice {A} (xs : list A) :
  xs <> [] -> Returns (choice xs) (fun x => In x xs).
Proof.
  intros Hne. unfold choice. destruct xs as [|x0 xs']; [congruence|].
  set (xs := x0 :: xs') in *.
  eapply returns_bind.
  - apply returns_randbelow. subst xs. simpl List.length. lia.
  - intros i Hi. cbv beta in Hi.
    eapply returns_weaken; [apply returns_index; exact Hi|].
    intros a Ha. cbv beta in Ha. eapply nth_error_In; eauto.
Qed.

Lemma returns_getitem {V} (d : list (string * V)) k v :
  lookup k d = Some v -> Returns (getitem d k) (fun x => x = v).
Proof. intros E. unfold getitem. rewrite E. now apply returns_ret. Qed.

Lemma returns_lift_fuel {A} (o : option A) a :
  o = Some a -> Returns (lift_fuel o) (fun x => x = a).
Proof. intros ->. now apply returns_ret. Qed.

Lemma returns_repeatM {S} (I : S -> Prop) (body : S -> M S) n :
  (forall s, I s -> Returns (body s) I) ->
  forall s, I s -> Returns (repeatM n body s) I.
Proof.
  intros Hb. induction n as [|n IH]; intros s Hs; simpl.
  - now apply returns_ret.
  - eapply returns_bind; [apply Hb, Hs|]. intros s' Hs'. now apply IH.
Qed.

Lemma returns_forM {X S} (I : S -> Prop) (body : X -> S -> M S) xs :
  (forall x s, In x xs -> I s -> Returns (body x s) I) ->
  forall s, I s -> Returns (forM xs body s) I.
Proof.
  induction xs as [|x xs IH]; intros Hb s Hs; simpl.
  - now apply returns_ret.
  - eapply returns_bind; [apply Hb; [now left | exact Hs]|].
    intros s' Hs'. apply IH; [|exact Hs']. intros; apply Hb; auto. now right.
Qed.

Lemma repeatM_S {S} n (body : S -> M S) s :
  repeatM (Datatypes.S n) body s = bind (body s) (repeatM n body).
Proof. reflexivity. Qed.

Lemma forM_cons {X S} x xs (body : X -> S -> M S) s :
  forM (x :: xs) body s = bind (body x s) (forM xs body).
Proof. reflexivity. Qed.

Lemma returns_replicateM {A} (m : M A) n :
  Returns m (fun _ => True) -> Returns (replicateM n m) (fun _ => True).
Proof.
  intros Hm. induction n as [|n IH]; simpl.
  - now apply returns_ret.
  - eapply returns_bind; [exact Hm|]. intros a _.
    eapply returns_bind; [exact IH|]. intros l _. now apply returns_ret.
Qed.

(* ------------------------------------------------------------------ *)
(** ** Weighted choice *)

Lemma bisect_lt cum x : cum <> [] -> (bisect cum x < List.length cum)%nat.
Proof.
  induction cum as [|c r IH]; intros Hne; [congruence|].
  destruct r as [|c' r']; simpl; [lia|].
  destruct (Qle_bool c x); [|lia].
  assert (c' :: r' <> []) as H by congruence. specialize (IH H).
  simpl in IH. lia.
Qed.

Lemma accumulate_length acc ws :
  List.length (accumulate acc ws) = List.length ws.
Proof.
  revert acc. induction ws as [|w r IH]; intros acc; simpl; [reflexivity|].
  now rewrite IH.
Qed.

Lemma last_accumulate ws : forall acc d,
  ws <> [] -> (last (accumulate acc ws) d == acc + sumQ ws)%Q.
Proof.
  induction ws as [|w r IH]; intros acc d Hne; [congruence|].
  destruct r as [|w' r'].
  - simpl. lra.
  - change (accumulate acc (w :: w' :: r'))
      with ((acc + w)%Q :: accumulate (acc + w) (w' :: r')).
    change (sumQ (w :: w' :: r')) with (w + sumQ (w' :: r'))%Q.
    assert (w' :: r' <> []) as H by congruence.
    specialize (IH (acc + w)%Q d H).
    simpl accumulate in *. simpl last in *. rewrite IH. lra.
Qed.

(** The entry a draw in [[acc, acc + sum ws)] selects carries a positive
    weight. *)
Lemma bisect_weight ws : forall acc x,
  ws <> [] -> Forall (Qle 0) ws ->
  (acc <= x)%Q -> (x < acc + sumQ ws)%Q ->
  exists w, nth_error ws (bisect (accumulate acc ws) x) = Some w /\ (0 < w)%Q.
Proof.
  induction ws as [|w r IH]; intros acc x Hne Hpos Hlo Hhi; [congruence|].
  destruct r as [|w' r'].
  - simpl in *. exists w. split; [reflexivity | lra].
  - change (accumulate acc (w :: w' :: r'))
      with ((acc + w)%Q :: accumulate (acc + w) (w' :: r')).
    change (sumQ (w :: w' :: r')) with (w + sumQ (w' :: r'))%Q in Hhi.
    assert (bisect ((acc + w)%Q :: accumulate (acc + w) (w' :: r')) x
            = if Qle_bool (acc + w) x
              then S (bisect (accumulate (acc + w) (w' :: r')) x) else O) as E
      by reflexivity.
    rewrite E. destruct (Qle_bool (acc + w) x) eqn:C.
    + apply Qle_bool_iff in C. inversion Hpos; subst.
      destruct (IH (acc + w)%Q x) as (w0 & E0 & H0); try assumption.
      * congruence.
      * lra.
      * exists w0. split; [exact E0 | exact H0].
    + exists w. split; [reflexivity|].
      assert (~ (acc + w <= x)%Q) as N.
      { intro H. apply Qle_bool_iff in H. congruence. }
      lra.
Qed.

Lemma unit_value_range k :
  0 <= k < two53 -> (0 <= unit_value k)%Q /\ (unit_value k < 1)%Q.
Proof.
  intros Hk. unfold unit_value, Qle, Qlt. simpl.
  change two53 with 9007199254740992 in Hk. lia.
Qed.

Lemma scaled_draw_range k total :
  0 <= k < two53 -> (0 < total)%Q ->
  (0 <= unit_value k * total)%Q /\ (unit_value k * total < total)%Q.
Proof.
  intros Hk Ht. destruct (unit_value_range k Hk) as [H0 H1]. split.
  - apply Qmult_le_0_compat; [exact H0 | lra].
  - setoid_replace total with (1 * total)%Q at 2 by ring.
    apply Qmult_lt_compat_r; assumption.
Qed.

Lemma Qle_bool_false x y : Qle_bool x y = false <-> (y < x)%Q.
Proof.
  split; intros H.
  - destruct (Qlt_le_dec y x) as [L|L]; [exact L|].
    apply Qle_bool_iff in L. congruence.
  - destruct (Qle_bool x y) eqn:E; [|reflexivity].
    apply Qle_bool_iff in E. lra.
Qed.

(** [random.choices] with cumulative weights [cum] returns the element
    at the index that some unit draw selects. *)
Lemma returns_choices_cum {A} (population : list A) cum :
  List.length cum = List.length population ->
  (0 < last cum 0)%Q ->
  Returns (choices_cum population cum)
    (fun a => exists k, 0 <= k < two53 /\
       nth_error population (bisect cum (unit_value k * last cum 0)%Q) = Some a).
Proof.
  intros Hlen Htot. unfold choices_cum.
  rewrite Hlen, Nat.eqb_refl. simpl negb. cbv iota.
  assert (cum <> []) as Hne.
  { intro E. subst cum. simpl in Htot. discriminate. }
  destruct cum as [|c0 cum']; [congruence|]. set (cum := c0 :: cum') in *.
  apply Qle_bool_false in Htot. rewrite Htot.
  eapply returns_bind; [apply returns_random|].
  intros k Hk. cbv beta in Hk.
  pose proof (bisect_lt cum (unit_value k * last cum 0)%Q Hne) as Hb.
  eapply returns_weaken.
  - apply returns_index. rewrite <- Hlen. lia.
  - intros a Ha. cbv beta in Ha. exists k. split; [exact Hk|].
    now rewrite Nat2Z.id in Ha.
Qed.

Lemma sum_from xs : forall a, fold_left Z.add xs a = a + fold_right Z.add 0 xs.
Proof.
  induction xs as [|x r IH]; intros a; simpl; [lia|]. rewrite IH. lia.
Qed.

Lemma sum_cons x xs : sum (x :: xs) = x + sum xs.
Proof. unfold sum. simpl. rewrite (sum_from xs x), (sum_from xs 0). lia. Qed.

Lemma sumQ_inject ws : (sumQ (map inject_Z ws) == inject_Z (sum ws))%Q.
Proof.
  induction ws as [|w r IH].
  - reflexivity.
  - rewrite sum_cons, inject_Z_plus. simpl. rewrite IH. reflexivity.
Qed.

Lemma sum_nonneg ws : Forall (fun w => 0 <= w) ws -> 0 <= sum ws.
Proof.
  induction 1 as [|w r Hw _ IH]; [reflexivity|]. rewrite sum_cons. lia.
Qed.

(** A sum of non-negative integers is zero exactly when each is. *)
Lemma sum_zero_iff ws :
  Forall (fun w => 0 <= w) ws -> (sum ws = 0 <-> Forall (fun w => w = 0) ws).
Proof.
  induction 1 as [|w r Hw Hr IH].
  - split; [constructor | reflexivity].
  - rewrite sum_cons. pose proof (sum_nonneg r Hr). split.
    + intros E. constructor; [lia|]. apply IH. lia.
    + intros F. inversion F; subst. apply IH in H3. lia.
Qed.

(** [random.choices] on integer weights returns an element whose own
    weight is positive. *)
Lemma returns_choices_int {A} (population : list A) ws :
  List.length ws = List.length population ->
  Forall (fun w => 0 <= w) ws -> 0 < sum ws ->
  Returns (choices_int population ws)
    (fun a => exists i w,
       nth_error population i = Some a /\ nth_error ws i = Some w /\ 0 < w).
Proof.
  intros Hlen Hpos Hsum. unfold choices_int.
  set (qs := map inject_Z ws).
  assert (qs <> []) as Hne.
  { subst qs. destruct ws; [discriminate Hsum | discriminate]. }
  assert (Forall (Qle 0) qs) as Hq.
  { subst qs. apply Forall_map. eapply Forall_impl; [|exact Hpos].
    intros w Hw. cbv beta in Hw. unfold Qle. simpl. lia. }
  pose proof (last_accumulate qs 0 0 Hne) as Hlast.
  assert (sumQ qs == inject_Z (sum ws))%Q as Hs by apply sumQ_inject.
  assert (0 < last (accumulate 0 qs) 0)%Q as Htot.
  { rewrite Hlast, Hs. unfold Qlt. simpl. lia. }
  eapply returns_weaken.
  - apply returns_choices_cum; [|exact Htot].
    subst qs. now rewrite accumulate_length, length_map.
  - intros a (k & Hk & Ha).
    destruct (scaled_draw_range k _ Hk Htot) as [H0 H1].
    destruct (bisect_weight qs 0 (unit_value k * last (accumulate 0 qs) 0)%Q)
      as (w' & Ew & Hw'); try assumption.
    { rewrite <- Hlast. exact H1. }
    subst qs. rewrite nth_error_map in Ew.
    destruct (nth_error ws _) as [w|] eqn:E; [|discriminate].
    inversion Ew; subst w'. eexists _, w.
    split; [exact Ha|]. split; [exact E|].
    unfold Qlt in Hw'. simpl in Hw'. lia.
Qed.

(* ------------------------------------------------------------------ *)
(** ** The state sampler *)

Lemma remaining_nonneg t ibs :
  Forall (fun w => 0 <= w) (values (remaining_states t ibs)).
Proof.
  unfold values, remaining_states. rewrite map_map. apply Forall_map.
  apply Forall_forall. intros [s x] _. simpl. lia.
Qed.

Lemma in_remaining t ibs s w :
  In (s, w) (remaining_states t ibs) <->
  exists target, In (s, target) t /\ w = Z.max 0 (target - count_of s ibs).
Proof.
  unfold remaining_states. rewrite in_map_iff. split.
  - intros ([s' x] & E & Hin). inversion E; subst. eauto.
  - intros (x & Hin & ->). exists (s, x). auto.
Qed.

Lemma nth_error_keys_values {V} (d : list (string * V)) i k v :
  nth_error (keys d) i = Some k -> nth_error (values d) i = Some v ->
  In (k, v) d.
Proof.
  unfold keys, values. rewrite !nth_error_map.
  destruct (nth_error d i) as [[k' v']|] eqn:E; simpl; [|discriminate].
  intros H1 H2. inversion H1; inversion H2; subst.
  eapply nth_error_In; eauto.
Qed.

Lemma in_keys {V} (d : list (string * V)) k :
  In k (keys d) <-> exists v, In (k, v) d.
Proof.
  unfold keys. rewrite in_map_iff. split.
  - intros ([k' v] & E & H). simpl in E. subst. eauto.
  - intros (v & H). exists (k, v). auto.
Qed.

Lemma state_weights_nonneg : Forall (fun w => 0 <= w) (values STATE_DISTRIBUTION).
Proof. repeat constructor; discriminate. Qed.

Lemma returns_pick_weighted_state :
  Returns pick_weighted_state (fun s => In s (keys STATE_DISTRIBUTION)).
Proof.
  unfold pick_weighted_state. eapply returns_weaken.
  - apply returns_choices_int;
      [reflexivity | apply state_weights_nonneg | reflexivity].
  - intros s (i & w & Hs & _). cbv beta. eapply nth_error_In; eauto.
Qed.

(** The branch of the sampler is decided by whether any quota remains. *)
Lemma quota_sum_zero ibs :
  sum (values (remaining_states STATE_DISTRIBUTION ibs)) = 0 <->
  forall s target, In (s, target) STATE_DISTRIBUTION -> target <= count_of s ibs.
Proof.
  rewrite sum_zero_iff by apply remaining_nonneg.
  rewrite Forall_forall. split.
  - intros H s target Hin.
    assert (Z.max 0 (target - count_of s ibs) = 0) as E.
    { apply H. unfold values. apply in_map_iff.
      exists (s, Z.max 0 (target - count_of s ibs)). split; [reflexivity|].
      apply in_remaining. eauto. }
    lia.
  - intros H w Hw. unfold values in Hw. apply in_map_iff in Hw.
    destruct Hw as ([s w'] & E & Hin). simpl in E. subst w'.
    apply in_remaining in Hin. destruct Hin as (target & Hin & ->).
    specialize (H s target Hin). lia.
Qed.

(** The state the sampler returns is a configured state, and while some
    quota is open it is a state whose own quota is open. *)
Lemma returns_pick_state ibs :
  Returns (pick_state ibs)
    (fun s => exists target, In (s, target) STATE_DISTRIBUTION /\
       ((exists s' t', In (s', t') STATE_DISTRIBUTION /\ count_of s' ibs < t')
        -> count_of s ibs < target)).
Proof.
  unfold pick_state.
  set (remaining := remaining_states STATE_DISTRIBUTION ibs).
  destruct (Z.eqb_spec (sum (values remaining)) 0) as [E|N].
  - eapply returns_weaken; [apply returns_pick_weighted_state|].
    intros s Hs. cbv beta in Hs. apply in_keys in Hs.
    destruct Hs as (target & Hin). exists target. split; [exact Hin|].
    intros (s' & t' & Hin' & Hlt). subst remaining.
    rewrite quota_sum_zero in E. specialize (E s' t' Hin'). lia.
  - pose proof (remaining_nonneg STATE_DISTRIBUTION ibs) as Hpos.
    fold remaining in Hpos. pose proof (sum_nonneg _ Hpos).
    eapply returns_weaken.
    + apply returns_choices_int; [|exact Hpos|lia].
      unfold keys, values. now rewrite !length_map.
    + intros s (i & w & Hs & Hw & Hlt). cbv beta.
      pose proof (nth_error_keys_values remaining i s w Hs Hw) as Hin.
      subst remaining. apply in_remaining in Hin.
      destruct Hin as (target & Hin & ->). exists target.
      split; [exact Hin|]. intros _. lia.
Qed.

(* ------------------------------------------------------------------ *)
(** ** Configuration tables *)

Lemma all_from_spec n : forall lo p,
  all_from n lo p = true ->
  forall h, lo <= h < lo + Z.of_nat n -> p h = true.
Proof.
  induction n as [|n IH]; intros lo p H h Hh; [lia|].
  simpl in H. apply andb_true_iff in H. destruct H as [H0 H1].
  destruct (Z.eq_dec h lo) as [->|N]; [exact H0|].
  apply (IH (lo + 1) p H1). lia.
Qed.

(** On every hammer price of the price ranges, the truncated float
    product [int(hammer * 0.10)] is the integer quotient by ten. *)
Lemma buyers_premium_quotient h :
  2000 <= h <= 50000 ->
  int_of_float (float_of_int h * 0.10) = h / 10.
Proof.
  intros Hh. apply Z.eqb_eq.
  apply (all_from_spec (Z.to_nat 48001) 2000
           (fun h => int_of_float (float_of_int h * 0.10) =? h / 10)).
  - vm_compute. reflexivity.
  - rewrite Z2Nat.id; lia.
Qed.

(** The tables of a category: its lists are not empty and its price
    range gives non-empty draw ranges, with every starting bid below
    every hammer price. *)
Lemma category_tables c :
  In c categories ->
  exists subs makes lo hi,
    lookup c SUBCATEGORIES = Some subs /\ subs <> [] /\
    lookup c MAKES_MODELS = Some makes /\ makes <> [] /\
    (forall mk ms, In (mk, ms) makes -> ms <> []) /\
    lookup c PRICE_RANGES = Some (lo, hi) /\
    int_of_float (float_of_int lo * 0.5) <= int_of_float (float_of_int lo * 0.8) /\
    int_of_float (float_of_int lo * 0.7) <= int_of_float (float_of_int lo * 0.9) /\
    int_of_float (float_of_int lo * 0.8) < lo /\
    2000 <= lo /\ lo <= hi /\ hi <= 50000.
Proof.
  intros Hc.
  assert (forall (makes : list (string * list string)),
            forallb (fun p => nonempty (snd p)) makes = true ->
            forall mk ms, In (mk, ms) makes -> ms <> []) as Hm.
  { intros makes H mk ms Hin. rewrite forallb_forall in H.
    specialize (H _ Hin). simpl in H. now destruct ms. }
  simpl in Hc.
  destruct Hc as [<-|[<-|[<-|[<-|[]]]]];
    (eexists _, _, _, _;
     split; [reflexivity|]; split; [discriminate|];
     split; [reflexivity|]; split; [discriminate|];
     split; [apply Hm; reflexivity|];
     split; [reflexivity|];
     repeat split; vm_compute; congruence).
Qed.

(** The tables of a state. *)
Lemma state_tables s :
  In s (keys STATE_DISTRIBUTION) ->
  exists cities region,
    lookup s STATE_CITIES = Some cities /\ cities <> [] /\
    lookup s STATE_TO_REGION = Some region /\ 1 <= region <= 3.
Proof.
  intros Hs.
  assert (forallb (fun s =>
            match lookup s STATE_CITIES, lookup s STATE_TO_REGION with
            | Some (_ :: _), Some region => (1 <=? region) && (region <=? 3)
            | _, _ => false
            end) (keys STATE_DISTRIBUTION) = true) as H by reflexivity.
  rewrite forallb_forall in H. specialize (H s Hs).
  destruct (lookup s STATE_CITIES) as [[|c cs]|]; try discriminate.
  destruct (lookup s STATE_TO_REGION) as [region|]; try discriminate.
  exists (c :: cs), region. repeat split; try discriminate; lia.
Qed.

(* ------------------------------------------------------------------ *)
(** ** The draws of one item *)

Lemma returns_choices_float {A} (population : list A) ws :
  List.length ws = List.length population ->
  (0 < last (map Q_of_float (accumulate_float None ws)) 0)%Q ->
  Returns (choices_float population ws) (fun a => In a population).
Proof.
  intros Hlen Htot. unfold choices_float. eapply returns_weaken.
  - apply returns_choices_cum; [|exact Htot].
    rewrite length_map, <- Hlen. clear.
    generalize (@None float). induction ws as [|w r IH]; intros acc; simpl;
      [reflexivity | now rewrite IH].
  - intros a (k & _ & Ha). cbv beta. eapply nth_error_In; eauto.
Qed.

Lemma returns_category date :
  Returns (choices_float (keys (get_category_distribution date))
                         (values (get_category_distribution date)))
          (fun c => In c categories).
Proof.
  unfold get_category_distribution.
  destruct (get_week_number date =? 10);
    (eapply returns_weaken;
     [apply returns_choices_float; [reflexivity | vm_compute; reflexivity]
     | intros c Hc; exact Hc]).
Qed.

Lemma returns_choices_uniform {A} (population : list A) :
  population <> [] ->
  Returns (choices_uniform population) (fun a => In a population).
Proof.
  intros Hne. unfold choices_uniform.
  eapply returns_bind; [apply returns_random|].
  intros k Hk. cbv beta in Hk.
  assert (0 < Z.of_nat (List.length population)) as Hn.
  { destruct population; [congruence | simpl; lia]. }
  assert (two53 = 9007199254740992) as E2 by reflexivity.
  eapply returns_weaken.
  - apply returns_index. split.
    + apply Z.div_pos; [nia | lia].
    + apply Z.div_lt_upper_bound; [lia | nia].
  - intros a Ha. cbv beta in Ha. eapply nth_error_In; eauto.
Qed.

Lemma returns_generate_icn : Returns generate_icn (fun _ => True).
Proof.
  unfold generate_icn.
  eapply returns_bind.
  { apply returns_replicateM. eapply returns_weaken;
      [apply returns_choices_uniform; discriminate | auto]. }
  intros letters _.
  eapply returns_bind.
  { apply returns_replicateM. eapply returns_weaken;
      [apply returns_choices_uniform; discriminate | auto]. }
  intros numbers _. now apply returns_ret.
Qed.

Lemma returns_region state :
  In state (keys STATE_DISTRIBUTION) ->
  Returns (get_region_district_territory state) (fun _ => True).
Proof.
  intros Hs. destruct (state_tables state Hs) as (cities & region & _ & _ & E & Hr).
  unfold get_region_district_territory.
  eapply returns_bind; [apply returns_getitem, E|].
  intros x ->.
  eapply returns_bind; [apply returns_randint; lia|].
  intros district _.
  eapply returns_bind; [apply returns_randint; lia|].
  intros territory _. now apply returns_ret.
Qed.

Lemma nonempty_spec {A} (xs : list A) : nonempty xs = true -> xs <> [].
Proof. destruct xs; [discriminate | discriminate]. Qed.

Lemma returns_pick_seller sellers category :
  sellers <> [] ->
  Returns (pick_seller_for_category sellers category) (fun s => In s sellers).
Proof.
  intros Hne. unfold pick_seller_for_category.
  assert (forall seg, nonempty (filter (has_segment seg) sellers) = true ->
            Returns (choice (filter (has_segment seg) sellers))
                    (fun s => In s sellers)) as Hpref.
  { intros seg H. eapply returns_weaken;
      [apply returns_choice, nonempty_spec, H|].
    intros s Hs. cbv beta in Hs. apply filter_In in Hs. tauto. }
  destruct (String.eqb category "Construction").
  - destruct (nonempty (filter (has_segment "Enterprise") sellers)) eqn:E;
      [|now apply returns_choice].
    eapply returns_bind; [apply returns_random|]. intros k _.
    destruct (unit_lt k 0.70); [now apply Hpref | now apply returns_choice].
  - destruct (String.eqb category "Passenger"); [|now apply returns_choice].
    destruct (nonempty (filter (has_segment "Core") sellers)) eqn:E;
      [|now apply returns_choice].
    eapply returns_bind; [apply returns_random|]. intros k _.
    destruct (unit_lt k 0.60); [now apply Hpref | now apply returns_choice].
Qed.

(** The item record of an iteration: the price fields are derived as
    [item_ok] says, and the identity fields are the arguments. *)
Lemma returns_item_record sellers buyers date_str id category state :
  sellers <> [] -> buyers <> [] ->
  In category categories -> In state (keys STATE_DISTRIBUTION) ->
  Returns (item_record sellers buyers date_str id category state)
    (fun p => item_ok (fst p) /\ Item.unique_id (fst p) = id /\
              Item.location_state (fst p) = state /\
              Item.buyer_id (fst p) = Customer.customer_id (snd p)).
Proof.
  intros Hs Hb Hc Hst.
  destruct (category_tables category Hc)
    as (subs & makes & lo & hi & Esub & Nsub & Emk & Nmk & Hms & Epr
        & H1 & H2 & H3 & Hlo & Hlh & Hhi).
  destruct (state_tables state Hst) as (cities & region & Ecity & Ncity & _ & _).
  unfold item_record.
  eapply returns_bind; [apply returns_getitem, Ecity|]. intros ? ->.
  eapply returns_bind; [apply returns_choice, Ncity|]. intros city _.
  eapply returns_bind; [apply returns_getitem, Esub|]. intros ? ->.
  eapply returns_bind; [apply returns_choice, Nsub|]. intros subcategory _.
  eapply returns_bind; [apply returns_getitem, Emk|]. intros ? ->.
  eapply returns_bind; [apply returns_choice, Nmk|].
  intros [make models] Hmk. cbv beta in Hmk.
  eapply returns_bind; [apply returns_choice, (Hms _ _ Hmk)|]. intros model _.
  eapply returns_bind; [apply returns_getitem, Epr|]. intros ? ->.
  eapply returns_bind; [apply returns_randint, H1|].
  intros starting_bid Hsb. cbv beta in Hsb.
  eapply returns_bind; [apply returns_randint, H2|].
  intros reserve_price _.
  eapply returns_bind; [apply returns_randint, Hlh|].
  intros hammer Hh. cbv beta in Hh.
  eapply returns_bind; [apply returns_region, Hst|].
  intros [[region_id district_id] territory_id] _.
  eapply returns_bind; [apply returns_pick_seller, Hs|]. intros seller _.
  eapply returns_bind; [apply returns_choice, Hb|]. intros buyer _.
  eapply returns_bind; [apply returns_generate_icn|]. intros icn _.
  eapply returns_bind; [apply returns_randint; lia|]. intros year _.
  eapply returns_bind; [apply returns_randint; lia|].
  intros num_bids Hn. cbv beta in Hn.
  apply returns_ret. unfold item_ok. simpl.
  rewrite buyers_premium_quotient by lia.
  repeat split; try reflexivity; lia.
Qed.

(* ------------------------------------------------------------------ *)
(** ** The bids and fees of one item *)

Lemma returns_bid_body buyers buyer hammer n date id bid_num cur bs bid :
  buyers <> [] ->
  Returns (bid_body buyers buyer hammer n date id bid_num (cur, bs, bid))
    (fun acc => exists b,
       acc = (Bid.bid_amount b, bs ++ [b], bid + 1) /\ Bid.item_id b = id /\
       if bid_num =? n - 1
       then Bid.is_winning_bid b = 1 /\ Bid.bid_amount b = hammer
            /\ Bid.bidder_id b = Customer.customer_id buyer
       else Bid.is_winning_bid b = 0
            /\ cur + 100 <= Bid.bid_amount b <= cur + 1000).
Proof.
  intros Hb. unfold bid_body.
  eapply returns_bind; [apply returns_choice, Hb|]. intros bidder _.
  eapply returns_bind; [apply returns_randint; lia|].
  intros increment Hi. cbv beta in Hi.
  eapply returns_bind; [apply returns_randint; lia|]. intros hours _.
  eapply returns_bind; [apply returns_randint; lia|]. intros minutes _.
  apply returns_ret.
  destruct (bid_num =? n - 1); simpl;
    (eexists (Bid.mk _ _ _ _ _ _); simpl; split; [reflexivity|]);
    repeat split; lia.
Qed.

Lemma returns_bid_loop buyers buyer hammer n date id :
  buyers <> [] ->
  forall m a cur bs bid,
    Z.of_nat (a + S m) = n ->
    Returns (forM (map Z.of_nat (seq a (S m)))
                  (bid_body buyers buyer hammer n date id) (cur, bs, bid))
      (fun acc => exists new,
         snd (fst acc) = bs ++ new /\ List.length new = S m /\
         Forall (fun b => Bid.item_id b = id) new /\
         bid_run hammer (Customer.customer_id buyer) cur new).
Proof.
  intros Hb. induction m as [|m IH]; intros a cur bs bid Hn.
  - simpl. eapply returns_bind; [apply returns_bid_body, Hb|].
    intros acc (b & -> & Hid & Hw). apply returns_ret.
    replace (Z.of_nat a =? n - 1) with true in Hw
      by (symmetry; apply Z.eqb_eq; lia).
    exists [b]. simpl. repeat split; auto; tauto.
  - change (forM (map Z.of_nat (seq a (S (S m))))
                  (bid_body buyers buyer hammer n date id) (cur, bs, bid))
      with (bind (bid_body buyers buyer hammer n date id (Z.of_nat a)
                           (cur, bs, bid))
                 (forM (map Z.of_nat (seq (S a) (S m)))
                       (bid_body buyers buyer hammer n date id))).
    eapply returns_bind; [apply returns_bid_body, Hb|].
    intros acc (b & -> & Hid & Hw).
    replace (Z.of_nat a =? n - 1) with false in Hw
      by (symmetry; apply Z.eqb_neq; lia).
    eapply returns_weaken; [apply IH; lia|].
    intros acc (new & E & Hlen & Hall & Hrun). cbv beta.
    exists (b :: new). rewrite E, <- app_assoc. simpl.
    repeat split; auto; try tauto.
    destruct new as [|b' new']; [discriminate Hlen|]. tauto.
Qed.

Lemma fee_body_run id fs fid r :
  fee_body id (fs, fid) r =
  Ok ((fs ++ fee_records id fid (next_unit r) (next_unit (skip 1 r)),
       fid + Z.of_nat (List.length
                (fee_records id fid (next_unit r) (next_unit (skip 1 r))))),
      skip 2 r).
Proof.
  unfold fee_body, fee_records, getitem. simpl lookup. unfold bind at 1 2.
  unfold ret at 1 2. unfold bind at 1. rewrite random_run.
  unfold bind at 1.
  destruct (unit_lt (next_unit r) 0.60); unfold bind, ret;
    rewrite random_run;
    destruct (unit_lt (next_unit (skip 1 r)) 0.20); simpl;
    rewrite <- ?app_assoc, skip_skip, <- ?Z.add_assoc; reflexivity.
Qed.

Lemma returns_fee_body id fs fid :
  Returns (fee_body id (fs, fid))
    (fun acc => exists k1 k2, fst acc = fs ++ fee_records id fid k1 k2).
Proof.
  intro r. rewrite fee_body_run. eexists _, _. split; [reflexivity|].
  simpl. eexists _, _. reflexivity.
Qed.

Lemma fee_records_item id fid k1 k2 :
  Forall (fun f => Fee.item_id f = id) (fee_records id fid k1 k2).
Proof.
  unfold fee_records.
  destruct (unit_lt k1 0.60), (unit_lt k2 0.20); repeat constructor.
Qed.

(* ------------------------------------------------------------------ *)
(** ** The item loop *)

Lemma returns_items_per_day date : Returns (items_per_day date) (fun _ => True).
Proof.
  unfold items_per_day.
  destruct (get_week_number date =? 15); [|destruct (month date =? 12)];
    (eapply returns_weaken; [apply returns_randint; lia | auto]).
Qed.

(** One iteration of the item loop raises no exception and relates the
    loop variables as [step_ok] says. *)
Lemma returns_item_body sellers buyers date date_str st :
  sellers <> [] -> buyers <> [] ->
  Returns (item_body sellers buyers date (get_category_distribution date)
                     date_str st)
          (step_ok st).
Proof.
  intros Hs Hb. unfold item_body.
  eapply returns_bind; [apply returns_category|].
  intros category Hc. cbv beta in Hc.
  eapply returns_bind; [apply returns_pick_state|].
  intros state (target & Hin & Hq).
  assert (In state (keys STATE_DISTRIBUTION)) as Hst
    by (apply in_keys; eauto).
  eapply returns_bind;
    [apply (returns_item_record sellers buyers date_str (item_id st)
              category state Hs Hb Hc Hst)|].
  intros [it buyer] (Hok & Hid & Hloc & Hbuyer). simpl in Hok, Hid, Hloc, Hbuyer.
  assert (1 <= Item.num_bids it <= 15) as Hn by (unfold item_ok in Hok; tauto).
  unfold range. destruct (Z.to_nat (Item.num_bids it)) as [|m] eqn:Em; [lia|].
  eapply returns_bind.
  { apply (returns_bid_loop buyers buyer (Item.hammer it) (Item.num_bids it)
             date (item_id st) Hb m 0%nat). lia. }
  intros [[cur bs'] bid'] (new & Ebs & Hlen & Hall & Hrun). simpl in Ebs.
  eapply returns_bind; [apply returns_fee_body|].
  intros [fs' fid'] (k1 & k2 & Ef). simpl in Ef.
  apply returns_ret. exists it, new, (fee_records (item_id st) (fee_id st) k1 k2).
  cbn [items bids fees item_id items_by_state].
  rewrite Hbuyer, Hloc.
  do 10 (split; [first [assumption | reflexivity | lia]|]).
  split; [eexists _, _, _; reflexivity|].
  exists target. split; [exact Hin | exact Hq].
Qed.

Lemma filter_all {A} (p : A -> bool) xs :
  Forall (fun x => p x = true) xs -> filter p xs = xs.
Proof.
  induction 1 as [|x r Hx _ IH]; simpl; [reflexivity|]. now rewrite Hx, IH.
Qed.

Lemma filter_none {A} (p : A -> bool) xs :
  Forall (fun x => p x = false) xs -> filter p xs = [].
Proof.
  induction 1 as [|x r Hx _ IH]; simpl; [reflexivity|]. now rewrite Hx, IH.
Qed.

Lemma count_of_incr s' s d :
  count_of s (incr s' d) = count_of s d + (if String.eqb s' s then 1 else 0).
Proof.
  unfold count_of. induction d as [|[k n] r IH]; simpl.
  - rewrite (String.eqb_sym s s'). destruct (String.eqb s' s); reflexivity.
  - destruct (String.eqb_spec s' k) as [->|Nk]; simpl.
    + rewrite (String.eqb_sym k s). destruct (String.eqb s k); lia.
    + destruct (String.eqb_spec s k) as [->|Ns].
      * destruct (String.eqb_spec s' k); [congruence | lia].
      * exact IH.
Qed.

Lemma placed_snoc its it s :
  placed (its ++ [it]) s
  = placed its s + (if String.eqb (Item.location_state it) s then 1 else 0).
Proof.
  unfold placed. rewrite filter_app, length_app. simpl.
  destruct (String.eqb (Item.location_state it) s); simpl; lia.
Qed.

Lemma snoc_split {A} (pre post l : list A) x y :
  pre ++ x :: post = l ++ [y] ->
  (post = [] /\ pre = l /\ x = y)
  \/ exists post', post = post' ++ [y] /\ l = pre ++ x :: post'.
Proof.
  intros E. destruct post as [|p post0].
  - left. apply app_inj_tail in E. tauto.
  - right. destruct (exists_last (l := p :: post0)) as (post' & z & Ez);
      [discriminate|].
    rewrite Ez in *. exists post'.
    change (pre ++ x :: post' ++ [z]) with (pre ++ (x :: post') ++ [z]) in E.
    rewrite app_assoc in E. apply app_inj_tail in E.
    destruct E as [<- <-]. auto.
Qed.

Lemma bids_of_app it bs new : bids_of it (bs ++ new) = bids_of it bs ++ bids_of it new.
Proof. apply filter_app. Qed.

Lemma inv_initial : Inv initial_state.
Proof.
  unfold Inv, initial_state. simpl. repeat split; try tauto.
  intros pre it post E. destruct pre; discriminate.
Qed.

(** The invariant holds again after an iteration of the item loop. *)
Lemma inv_step st st' : Inv st -> step_ok st st' -> Inv st'.
Proof.
  intros (Hit & Hbid & Hspec & Hcount & Hquota & Hfid & Hfees)
         (it & new & newf & Ei & Eb & Ef & Eid & Euid & Hok & Hall & Hrun
          & Hlen & Eibs & (fid & k1 & k2 & Enewf) & target & Hin & Hq).
  pose proof (fee_records_item (item_id st) fid k1 k2) as Hfall.
  rewrite <- Enewf in Hfall.
  assert (bids_of it (bids st) = []) as Eold.
  { apply filter_none, Forall_forall. intros b Hb.
    apply Z.eqb_neq. specialize (Hbid b Hb). lia. }
  assert (bids_of it new = new) as Enew.
  { apply filter_all. eapply Forall_impl; [|exact Hall].
    intros b Hb. cbv beta in Hb. apply Z.eqb_eq. lia. }
  unfold Inv. rewrite Ei, Eb, Ef, Eid.
  split; [|split; [|split; [|split; [|split; [|split]]]]].
  - intros x Hx. apply in_app_iff in Hx. destruct Hx as [Hx|[<-|[]]].
    + specialize (Hit x Hx). lia.
    + lia.
  - intros b Hb. apply in_app_iff in Hb. destruct Hb as [Hb|Hb].
    + specialize (Hbid b Hb). lia.
    + rewrite Forall_forall in Hall. specialize (Hall b Hb). lia.
  - intros x Hx. apply in_app_iff in Hx. rewrite bids_of_app.
    destruct Hx as [Hx|[<-|[]]].
    + replace (bids_of x new) with (@nil Bid.t).
      * rewrite app_nil_r. apply (Hspec x Hx).
      * symmetry. apply filter_none. eapply Forall_impl; [|exact Hall].
        intros b Hb. cbv beta in Hb. apply Z.eqb_neq.
        specialize (Hit x Hx). lia.
    + rewrite Eold, Enew. simpl. auto.
  - intros s. rewrite Eibs, count_of_incr, placed_snoc, Hcount. reflexivity.
  - intros pre x post E Hopen.
    symmetry in E. apply snoc_split in E.
    destruct E as [(-> & -> & ->)|(post' & -> & E)].
    + exists target. split; [exact Hin|]. rewrite <- Hcount. apply Hq.
      destruct Hopen as (s & t & Hs & Hlt). exists s, t.
      split; [exact Hs|]. now rewrite Hcount.
    + apply (Hquota pre x post' E Hopen).
  - intros f Hf. apply in_app_iff in Hf. destruct Hf as [Hf|Hf].
    + specialize (Hfid f Hf). lia.
    + rewrite Forall_forall in Hfall. specialize (Hfall f Hf). lia.
  - intros x Hx. apply in_app_iff in Hx. unfold fees_of. rewrite filter_app.
    destruct Hx as [Hx|[<-|[]]].
    + rewrite (filter_none _ newf).
      * rewrite app_nil_r. apply (Hfees x Hx).
      * eapply Forall_impl; [|exact Hfall].
        intros f Hf. cbv beta in Hf. apply Z.eqb_neq.
        specialize (Hit x Hx). lia.
    + rewrite (filter_none _ (fees st)), (filter_all _ newf).
      * exists fid, k1, k2. rewrite Euid. exact Enewf.
      * eapply Forall_impl; [|exact Hfall].
        intros f Hf. cbv beta in Hf. apply Z.eqb_eq. lia.
      * apply Forall_forall. intros f Hf. apply Z.eqb_neq.
        specialize (Hfid f Hf). lia.
Qed.

(** The item loop of a day keeps every predicate that an iteration
    keeps. *)
Lemma returns_item_loop (I : GenState -> Prop) sellers buyers date date_str :
  sellers <> [] -> buyers <> [] ->
  (forall st st', I st -> step_ok st st' -> I st') ->
  forall n st, I st ->
    Returns (repeatM n (item_body sellers buyers date
                          (get_category_distribution date) date_str) st) I.
Proof.
  intros Hs Hb Hstep n. apply returns_repeatM. intros st Hst.
  eapply returns_weaken; [apply returns_item_body; assumption|].
  intros st' Hst'. cbv beta in Hst'. eauto.
Qed.

(** So does the loop over the auction dates. *)
Lemma returns_day_loop (I : GenState -> Prop) sellers buyers :
  sellers <> [] -> buyers <> [] ->
  (forall st st', I st -> step_ok st st' -> I st') ->
  forall dates st, I st ->
    Returns (forM dates (day_body sellers buyers) st) I.
Proof.
  intros Hs Hb Hstep dates. apply returns_forM. intros date st _ Hst.
  unfold day_body.
  eapply returns_bind; [apply returns_items_per_day|]. intros n _.
  now apply returns_item_loop.
Qed.

(* ------------------------------------------------------------------ *)
(** ** [generate_customers] and the whole generation *)

Lemma returns_customer_name : Returns generate_customer_name (fun _ => True).
Proof.
  unfold generate_customer_name.
  eapply returns_bind; [apply returns_choice; discriminate|]. intros f _.
  eapply returns_bind; [apply returns_choice; discriminate|]. intros l _.
  now apply returns_ret.
Qed.

Lemma returns_generate_buyer cs id :
  Returns (generate_buyer (cs, id))
    (fun acc => exists c, fst acc = cs ++ [c] /\ Customer.customer_type c = "buyer").
Proof.
  unfold generate_buyer.
  eapply returns_bind; [apply returns_customer_name|]. intros [f l] _.
  eapply returns_bind; [apply returns_pick_weighted_state|]. intros s _.
  eapply returns_bind; [apply returns_randint; lia|]. intros n _.
  apply returns_ret. eexists. split; reflexivity.
Qed.

Lemma returns_generate_seller ty cs id :
  Returns (generate_seller ty (cs, id))
    (fun acc => exists c, fst acc = cs ++ [c] /\ Customer.customer_type c = ty).
Proof.
  unfold generate_seller.
  eapply returns_bind; [apply returns_customer_name|]. intros [f l] _.
  eapply returns_bind; [apply returns_pick_weighted_state|]. intros s _.
  eapply returns_bind.
  { apply returns_choices_float; [reflexivity | vm_compute; reflexivity]. }
  intros seg _.
  eapply returns_bind; [apply returns_randint; lia|]. intros n _.
  apply returns_ret. eexists. split; reflexivity.
Qed.

Lemma filter_nonempty {A} (p : A -> bool) xs x :
  In x xs -> p x = true -> filter p xs <> [].
Proof.
  intros Hin Hp E. assert (In x (filter p xs)) as H by (apply filter_In; auto).
  rewrite E in H. exact H.
Qed.

(** The customer table holds at least one buyer and one seller. *)
Lemma returns_generate_customers :
  Returns generate_customers
    (fun cs => filter is_seller cs <> [] /\ filter is_buyer cs <> []).
Proof.
  set (has := fun (p : Customer.t -> bool) (acc : list Customer.t * Z) =>
                exists c, In c (fst acc) /\ p c = true).
  assert (forall p ty acc, has p acc ->
            Returns (generate_seller ty acc) (has p)) as Hkeep.
  { intros p ty [cs id] (c & Hc & Hp).
    eapply returns_weaken; [apply returns_generate_seller|].
    intros acc (c' & E & _). exists c. rewrite E. split; [|exact Hp].
    apply in_app_iff. now left. }
  unfold generate_customers.
  eapply returns_bind with (P := has is_buyer).
  { change 2000%nat with (S 1999). rewrite repeatM_S.
    eapply returns_bind; [apply returns_generate_buyer|].
    intros acc (c & E & Hty).
    apply returns_repeatM.
    - intros [cs id] (c' & Hc' & Hp).
      eapply returns_weaken; [apply returns_generate_buyer|].
      intros acc' (c'' & E' & _). exists c'. rewrite E'. split; [|exact Hp].
      apply in_app_iff. now left.
    - exists c. rewrite E. split; [apply in_app_iff; right; now left|].
      unfold is_buyer. now rewrite Hty. }
  intros acc1 Hb1.
  eapply returns_bind with (P := fun acc => has is_buyer acc /\ has is_seller acc).
  { change 500%nat with (S 499). rewrite repeatM_S. destruct acc1 as [cs1 id1].
    eapply returns_bind with (P := fun acc => has is_buyer acc /\ has is_seller acc).
    - eapply returns_weaken; [apply returns_generate_seller|].
      intros acc (c & E & Hty). split.
      + destruct Hb1 as (b & Hb & Hp). exists b. rewrite E.
        split; [apply in_app_iff; now left | exact Hp].
      + exists c. rewrite E. split; [apply in_app_iff; right; now left|].
        unfold is_seller. now rewrite Hty.
    - intros acc Hacc. apply returns_repeatM; [|exact Hacc].
      intros s [H1 H2] r.
      destruct (Hkeep is_buyer "seller" s H1 r) as (a & r' & E & Ha).
      exists a, r'. split; [exact E|]. split; [exact Ha|].
      eapply returns_value; [apply (Hkeep is_seller "seller" s H2)|exact E]. }
  intros acc2 Hacc2.
  eapply returns_bind with (P := fun acc => has is_buyer acc /\ has is_seller acc).
  { apply returns_repeatM; [|exact Hacc2].
    intros s [H1 H2] r.
    destruct (Hkeep is_buyer "both" s H1 r) as (a & r' & E & Ha).
    exists a, r'. split; [exact E|]. split; [exact Ha|].
    eapply returns_value; [apply (Hkeep is_seller "both" s H2)|exact E]. }
  intros acc3 [(b & Hb & Hpb) (s & Hs & Hps)]. apply returns_ret. split.
  - exact (filter_nonempty _ _ s Hs Hps).
  - exact (filter_nonempty _ _ b Hb Hpb).
Qed.

Lemma auction_dates_value :
  exists d dates, generate_auction_dates = Some (d :: dates).
Proof. eexists _, _. vm_compute. reflexivity. Qed.

(** The generation over any customer table with a seller and a buyer
    raises no exception and ends in a state of the invariant. *)
Lemma returns_generate_over dates customers :
  filter is_seller customers <> [] -> filter is_buyer customers <> [] ->
  Returns (generate_over dates customers) Inv.
Proof.
  intros Hs Hb. unfold generate_over.
  apply returns_day_loop; try assumption.
  - apply inv_step.
  - apply inv_initial.
Qed.

Lemma returns_generate_items_bids_fees customers :
  filter is_seller customers <> [] -> filter is_buyer customers <> [] ->
  Returns (generate_items_bids_fees customers)
    (fun out => exists st, Inv st /\ out = (items st, bids st, fees st)).
Proof.
  intros Hs Hb. unfold generate_items_bids_fees.
  destruct auction_dates_value as (d & dates & E).
  eapply returns_bind; [apply returns_lift_fuel, E|]. intros ? ->.
  eapply returns_bind; [apply returns_generate_over; assumption|].
  intros st Hst. apply returns_ret. eauto.
Qed.

(** The same, in the shape the theorems on items use. *)
Lemma generation_invariant customers r :
  filter is_seller customers <> [] -> filter is_buyer customers <> [] ->
  exists its bs fs r',
    generate_items_bids_fees customers r = Ok (its, bs, fs, r') /\
    (forall it, In it its ->
       item_ok it /\
       bid_run (Item.hammer it) (Item.buyer_id it) (Item.starting_bid it)
               (bids_of it bs) /\
       Z.of_nat (List.length (bids_of it bs)) = Item.num_bids it) /\
    quota_respected its /\
    (forall it, In it its ->
       exists fee_id k1 k2,
         fees_of it fs = fee_records (Item.unique_id it) fee_id k1 k2).
Proof.
  intros Hs Hb.
  destruct (returns_generate_items_bids_fees customers Hs Hb r)
    as (out & r' & E & st & Hinv & ->).
  exists (items st), (bids st), (fees st), r'. split; [exact E|].
  destruct Hinv as (_ & _ & H3 & _ & H5 & _ & H7). auto.
Qed.

Lemma returns_main :
  Returns main (fun out =>
    (forall it, In it (out_items out) ->
       item_ok it /\
       bid_run (Item.hammer it) (Item.buyer_id it) (Item.starting_bid it)
               (bids_of it (out_bids out)) /\
       Z.of_nat (List.length (bids_of it (out_bids out))) = Item.num_bids it) /\
    quota_respected (out_items out) /\
    (forall it, In it (out_items out) ->
       exists fee_id k1 k2,
         fees_of it (out_fees out)
         = fee_records (Item.unique_id it) fee_id k1 k2)).
Proof.
  unfold main.
  eapply returns_bind; [apply returns_generate_customers|].
  intros customers [Hs Hb].
  eapply returns_bind; [apply returns_generate_items_bids_fees; assumption|].
  intros [[its bs] fs] (st & Hinv & E). inversion E; subst.
  apply returns_ret. simpl.
  destruct Hinv as (_ & _ & H3 & _ & H5 & _ & H7). auto.
Qed.

(* ------------------------------------------------------------------ *)
(** ** Bids of an item *)

Lemma rising_above lo xs :
  rising lo xs -> increasing xs /\ Forall (fun x => lo < x) xs.
Proof.
  revert lo. induction xs as [|x r IH]; intros lo H; simpl in *.
  - split; constructor.
  - destruct H as [Hx Hr]. destruct (IH x Hr) as [Hinc Hall]. split.
    + split; [|exact Hinc]. destruct r as [|y r']; [exact I|].
      simpl in Hr. lia.
    + constructor; [lia|]. eapply Forall_impl; [|exact Hall].
      intros a Ha. cbv beta in Ha. lia.
Qed.

(** The bids of an item are non-winning bids that rise from the starting
    bid, followed by the winning bid. *)
Lemma bid_run_split h buyer bs : forall lo,
  bid_run h buyer lo bs ->
  exists front w,
    bs = front ++ [w] /\
    Forall (fun b => Bid.is_winning_bid b = 0) front /\
    rising lo (map Bid.bid_amount front) /\
    Bid.is_winning_bid w = 1 /\ Bid.bid_amount w = h /\ Bid.bidder_id w = buyer.
Proof.
  induction bs as [|b r IH]; intros lo H; [contradiction|].
  destruct r as [|b' r'].
  - exists [], b. simpl in *. repeat split; try tauto. constructor.
  - destruct H as (H0 & Hamt & Hr).
    destruct (IH _ Hr) as (front & w & E & Hall & Hrise & Hw).
    exists (b :: front), w. rewrite E. simpl. repeat split; try tauto.
    constructor; assumption.
Qed.

Lemma winning_split front w :
  Forall (fun b => Bid.is_winning_bid b = 0) front ->
  Bid.is_winning_bid w = 1 ->
  winning (front ++ [w]) = [w].
Proof.
  intros Hall Hw. unfold winning. rewrite filter_app.
  rewrite (filter_none _ front).
  - simpl. now rewrite Hw.
  - eapply Forall_impl; [|exact Hall]. intros b Hb. cbv beta in Hb. now rewrite Hb.
Qed.

(* ------------------------------------------------------------------ *)
(** ** Quotas by state *)

Lemma state_lookup s target :
  In (s, target) STATE_DISTRIBUTION <-> lookup s STATE_DISTRIBUTION = Some target.
Proof.
  split.
  - intros Hin.
    assert (forallb (fun p => match lookup (fst p) STATE_DISTRIBUTION with
                              | Some t => t =? snd p
                              | None => false
                              end) STATE_DISTRIBUTION = true) as H by reflexivity.
    rewrite forallb_forall in H. specialize (H _ Hin). cbn [fst snd] in H.
    destruct (lookup s STATE_DISTRIBUTION); [|discriminate].
    apply Z.eqb_eq in H. now subst.
  - generalize STATE_DISTRIBUTION. intros d. induction d as [|[k x] d IH]; simpl;
      [discriminate|].
    destruct (String.eqb_spec s k) as [->|N].
    + intros E. inversion E. now left.
    + intros E. right. now apply IH.
Qed.

Lemma lookup_remaining t ibs s :
  lookup s (remaining_states t ibs)
  = option_map (fun target => Z.max 0 (target - count_of s ibs)) (lookup s t).
Proof.
  induction t as [|[k x] t IH]; simpl; [reflexivity|].
  destruct (String.eqb_spec s k) as [->|N]; [reflexivity | exact IH].
Qed.

(* ------------------------------------------------------------------ *)
(** ** The calendar *)

Lemma add_days_0 d : add_days d 0 = d.
Proof. destruct d. unfold add_days. simpl. now rewrite Z.add_0_r. Qed.

Lemma days_from_S start n :
  days_from start (S n) = start :: days_from (add_days start 1) n.
Proof.
  unfold days_from. simpl. rewrite add_days_0. f_equal.
  rewrite <- seq_shift, map_map. apply map_ext. intros k.
  unfold add_days. simpl. f_equal. lia.
Qed.

(** With enough fuel the loop of [generate_auction_dates] ends, and it
    appends the auction days among the days from [current] to
    [end_date]. *)
Lemma auction_dates_loop_S fuel current end_date hol acc :
  auction_dates_loop (S fuel) current end_date hol acc
  = if datetime_le current end_date
    then auction_dates_loop fuel (add_days current 1) end_date hol
           (if is_auction_day hol current then acc ++ [current] else acc)
    else Some acc.
Proof.
  unfold is_auction_day.
  change (auction_dates_loop (S fuel) current end_date hol acc)
    with (if datetime_le current end_date then
            auction_dates_loop fuel (add_days current 1) end_date hol
              (if mem_Z (weekday current) [1; 2; 3] then
                 if negb (datetime_mem current hol) then acc ++ [current]
                 else acc
               else acc)
          else Some acc).
  destruct (mem_Z (weekday current) [1; 2; 3]); reflexivity.
Qed.

Lemma auction_dates_loop_spec hol end_date : forall n current acc fuel,
  seconds current = seconds end_date ->
  ordinal end_date + 1 - ordinal current = Z.of_nat n ->
  (n < fuel)%nat ->
  auction_dates_loop fuel current end_date hol acc
  = Some (acc ++ filter (is_auction_day hol) (days_from current n)).
Proof.
  induction n as [|n IH]; intros current acc fuel Hsec Hn Hfuel;
    (destruct fuel as [|fuel]; [lia|]); rewrite auction_dates_loop_S.
  - replace (datetime_le current end_date) with false.
    + simpl. now rewrite app_nil_r.
    + symmetry. unfold datetime_le. apply orb_false_iff. split.
      * apply Z.ltb_ge. lia.
      * apply andb_false_iff. left. apply Z.eqb_neq. lia.
  - replace (datetime_le current end_date) with true.
    + rewrite IH; [|exact Hsec | simpl; lia | lia].
      rewrite days_from_S. simpl filter.
      destruct (is_auction_day hol current); [|reflexivity].
      now rewrite <- app_assoc.
    + symmetry. unfold datetime_le.
      destruct (Z.ltb_spec (ordinal current) (ordinal end_date)); [reflexivity|].
      simpl. apply andb_true_iff. split; [apply Z.eqb_eq | apply Z.leb_le]; lia.
Qed.

Lemma in_days_from start n d :
  In d (days_from start n) <->
  seconds d = seconds start /\
  ordinal start <= ordinal d < ordinal start + Z.of_nat n.
Proof.
  unfold days_from. rewrite in_map_iff. split.
  - intros (k & <- & Hk). apply in_seq in Hk. simpl. lia.
  - intros (Hs & Ho). exists (Z.to_nat (ordinal d - ordinal start)). split.
    + destruct d as [o s]. unfold add_days. simpl in *. f_equal; lia.
    + apply in_seq. lia.
Qed.

Lemma chronological_days_from n : forall start, chronological (days_from start n).
Proof.
  induction n as [|n IH]; intros start.
  - constructor.
  - rewrite days_from_S. constructor; [apply IH|].
    apply Forall_forall. intros d Hd. apply in_days_from in Hd. simpl in Hd. lia.
Qed.

Lemma chronological_filter p dates :
  chronological dates -> chronological (filter p dates).
Proof.
  induction 1 as [|d dates Hs IH Hall]; simpl; [constructor|].
  destruct (p d); [|exact IH]. constructor; [exact IH|].
  rewrite Forall_forall in *. intros x Hx. apply filter_In in Hx. now apply Hall.
Qed.

Lemma datetime_mem_spec d ds : datetime_mem d ds = true <-> In d ds.
Proof.
  unfold datetime_mem. rewrite existsb_exists. split.
  - intros (x & Hx & E). unfold datetime_eqb in E.
    apply andb_true_iff in E. destruct E as [E1 E2].
    apply Z.eqb_eq in E1. apply Z.eqb_eq in E2.
    destruct d, x. simpl in *. now subst.
  - intros H. exists d. split; [exact H|]. unfold datetime_eqb.
    now rewrite !Z.eqb_refl.
Qed.

Lemma is_auction_day_spec hol d :
  is_auction_day hol d = true <->
  (weekday d = 1 \/ weekday d = 2 \/ weekday d = 3) /\ ~ In d hol.
Proof.
  unfold is_auction_day. rewrite andb_true_iff, negb_true_iff.
  rewrite <- (datetime_mem_spec d hol). unfold mem_Z. simpl.
  rewrite !orb_true_iff, !Z.eqb_eq.
  destruct (datetime_mem d hol); intuition congruence.
Qed.

(* ------------------------------------------------------------------ *)
(** ** The database profile *)

Lemma mock_generate_fees_run h r :
  Mock.generate_fees h r
  = Ok (let pw := if unit_gt (next_unit r) 0.6 then 225 else 0 in
        let dr := if unit_gt (next_unit (skip 1 r)) 0.8 then 100 else 0 in
        Mock.mkFees 200 150 pw dr (200 + 150 + pw + dr)
          (float_of_int h + float_of_int h * 0.10)%float,
        skip 2 r).
Proof.
  unfold Mock.generate_fees. unfold bind at 1. rewrite random_run.
  unfold bind at 1. rewrite random_run. unfold ret. now rewrite skip_skip.
Qed.

Lemma returns_mock_generate_fees h :
  Returns (Mock.generate_fees h) fees_ok.
Proof.
  intro r. rewrite mock_generate_fees_run. eexists _, _.
  split; [reflexivity|]. unfold fees_ok. simpl.
  destruct (unit_gt (next_unit r) 0.6), (unit_gt (next_unit (skip 1 r)) 0.8);
    repeat split; auto.
Qed.

Lemma select_category_in rand : forall mix cumulative c,
  Mock.select_category rand cumulative mix = Some c -> In c (keys mix).
Proof.
  induction mix as [|[k p] mix IH]; intros cumulative c H; simpl in H;
    [discriminate|].
  destruct (unit_le rand (cumulative + p)).
  - inversion H. now left.
  - right. eapply IH, H.
Qed.

Lemma mock_mix_keys w : keys (Mock.get_category_mix w) = categories.
Proof.
  unfold Mock.get_category_mix.
  destruct (w =? 10); [reflexivity|]. destruct (w =? 15); reflexivity.
Qed.

Lemma mock_category_tables c :
  In c categories ->
  exists info, lookup c Mock.CATEGORIES = Some info /\
    Mock.models info <> [] /\
    fst (Mock.price_range info) <= snd (Mock.price_range info).
Proof.
  intros Hc. simpl in Hc.
  destruct Hc as [<-|[<-|[<-|[<-|[]]]]];
    (eexists; split; [reflexivity|]; split; [discriminate|]; simpl; lia).
Qed.

Lemma returns_mock_item_body date w rows id :
  Returns (Mock.item_body date (Mock.get_category_mix w) (rows, id))
    (fun acc => exists row, fst acc = rows ++ [row] /\ row_ok row).
Proof.
  unfold Mock.item_body.
  eapply returns_bind; [apply returns_random|]. intros rand _.
  set (selected := match Mock.select_category rand 0 (Mock.get_category_mix w)
                   with Some c => c | None => "Passenger" end).
  assert (In selected categories) as Hsel.
  { subst selected.
    destruct (Mock.select_category rand 0 (Mock.get_category_mix w)) eqn:E.
    - apply select_category_in in E. now rewrite mock_mix_keys in E.
    - simpl. tauto. }
  destruct (mock_category_tables selected Hsel) as (info & E & Hm & Hp).
  eapply returns_bind; [apply returns_getitem, E|]. intros ? ->.
  eapply returns_bind; [apply returns_choice, Hm|]. intros model _.
  eapply returns_bind; [apply returns_randint, Hp|]. intros hammer _.
  eapply returns_bind; [apply returns_mock_generate_fees|].
  intros fees Hfees. cbv beta in Hfees.
  eapply returns_bind; [apply returns_choice; discriminate|]. intros l1 _.
  eapply returns_bind; [apply returns_choice; discriminate|]. intros l2 _.
  eapply returns_bind; [apply returns_randint; lia|]. intros n _.
  apply returns_ret. eexists. split; [reflexivity|]. exact Hfees.
Qed.

Lemma returns_mock_items_per_day date :
  Returns (Mock.items_per_day date) (fun _ => True).
Proof.
  unfold Mock.items_per_day.
  destruct (month date =? 12);
    (eapply returns_weaken; [apply returns_randint; lia | auto]).
Qed.

(** The rows of the database profile: the generation raises no exception
    and the fee columns of every row add up. *)
Lemma returns_mock_generate_rows :
  Returns Mock.generate_rows (fun rows => Forall row_ok rows).
Proof.
  unfold Mock.generate_rows.
  eapply returns_bind.
  { eapply returns_lift_fuel. vm_compute. reflexivity. }
  intros dates _.
  eapply returns_bind
    with (P := fun st => Forall row_ok (Mock.rows st)).
  - apply returns_forM; [|constructor].
    intros date st _ Hst. unfold Mock.day_body.
    eapply returns_bind; [apply returns_mock_items_per_day|]. intros n _.
    eapply returns_bind
      with (P := fun acc => Forall row_ok (fst acc)).
    + apply returns_repeatM; [|exact Hst].
      intros [rows id] Hrows.
      eapply returns_weaken; [apply returns_mock_item_body|].
      intros acc (row & E & Hrow). rewrite E.
      apply Forall_app. split; [exact Hrows | now constructor].
    + intros [rows id] Hrows. now apply returns_ret.
  - intros st Hst. now apply returns_ret.
Qed.

(* ------------------------------------------------------------------ *)
(** ** Thresholds on the unit draw *)

Lemma unit_lt_spec k c m e :
  Q_of_float c = Qmake m e ->
  (unit_lt k c = true <-> k * Z.pos e < m * two53).
Proof.
  intros E. unfold unit_lt. rewrite E, negb_true_iff.
  unfold Qle_bool, unit_value. simpl. rewrite Z.leb_gt. reflexivity.
Qed.

Lemma unit_gt_spec k c m e :
  Q_of_float c = Qmake m e ->
  (unit_gt k c = true <-> m * two53 < k * Z.pos e).
Proof.
  intros E. unfold unit_gt. rewrite E, negb_true_iff.
  unfold Qle_bool, unit_value. simpl. rewrite Z.leb_gt. reflexivity.
Qed.

(** [random() < 0.60]: the draws below the float 0.60. *)
Lemma unit_lt_060 k : unit_lt k 0.60 = true <-> k < 5404319552844595.
Proof.
  rewrite (unit_lt_spec k 0.60 5404319552844595 9007199254740992)
    by (vm_compute; reflexivity).
  change two53 with 9007199254740992. lia.
Qed.

(** [random() < 0.20]: the draws below the float 0.20. *)
Lemma unit_lt_020 k : unit_lt k 0.20 = true <-> k <= 1801439850948198.
Proof.
  rewrite (unit_lt_spec k 0.20 7205759403792794 36028797018963968)
    by (vm_compute; reflexivity).
  change two53 with 9007199254740992. lia.
Qed.

(** [random() > 0.6]: the draws above the float 0.6. *)
Lemma unit_gt_06 k : unit_gt k 0.6 = true <-> 5404319552844595 < k.
Proof.
  rewrite (unit_gt_spec k 0.6 5404319552844595 9007199254740992)
    by (vm_compute; reflexivity).
  change two53 with 9007199254740992. lia.
Qed.

(** [random() > 0.8]: the draws above the float 0.8. *)
Lemma unit_gt_08 k : unit_gt k 0.8 = true <-> 7205759403792794 < k.
Proof.
  rewrite (unit_gt_spec k 0.8 7205759403792794 9007199254740992)
    by (vm_compute; reflexivity).
  change two53 with 9007199254740992. lia.
Qed.

(* ------------------------------------------------------------------ *)
(** ** Dependence on the random source *)

Lemma det_repeatM {S} (body : S -> M S) n :
  (forall s, Det (body s)) -> forall s, Det (repeatM n body s).
Proof.
  intros Hb. induction n as [|n IH]; intros s; simpl.
  - apply det_ret.
  - apply det_bind; [apply Hb | exact IH].
Qed.

Lemma det_forM {X S} (body : X -> S -> M S) xs :
  (forall x s, Det (body x s)) -> forall s, Det (forM xs body s).
Proof.
  intros Hb. induction xs as [|x xs IH]; intros s; simpl.
  - apply det_ret.
  - apply det_bind; [apply Hb | exact IH].
Qed.

Lemma det_replicateM {A} (m : M A) n : Det m -> Det (replicateM n m).
Proof.
  intros Hm. induction n as [|n IH]; simpl.
  - apply det_ret.
  - apply det_bind; [exact Hm|]. intros a.
    apply det_bind; [exact IH|]. intros l. apply det_ret.
Qed.

Create HintDb det.

(** One step of a proof of [Det]: through a bind, a loop or a case
    distinction of the code. *)
Ltac det_step :=
  match goal with
  | |- Det (ret _) => apply det_ret
  | |- Det (raise _) => apply det_raise
  | |- Det draw => apply det_draw
  | |- Det (bind _ _) => apply det_bind; [|intros ?]
  | |- Det (repeatM _ _ _) => apply det_repeatM; intros ?
  | |- Det (forM _ _ _) => apply det_forM; intros ? ?
  | |- Det (replicateM _ _) => apply det_replicateM
  | |- Det (if ?b then _ else _) => destruct b
  | |- Det (match ?x with _ => _ end) => destruct x
  | |- Det _ => solve [auto with det]
  end.

Ltac det := repeat det_step.

Lemma det_random : Det random.
Proof. unfold random. det. Qed.

Lemma det_randbelow n : Det (randbelow n).
Proof. unfold randbelow. det. Qed.
#[local] Hint Resolve det_random det_randbelow : det.

Lemma det_randint a b : Det (randint a b).
Proof. unfold randint. det. Qed.

Lemma det_index {A} (xs : list A) i : Det (index xs i).
Proof. unfold index. det. Qed.
#[local] Hint Resolve det_randint det_index : det.

Lemma det_choice {A} (xs : list A) : Det (choice xs).
Proof. unfold choice. det. Qed.

Lemma det_choices_cum {A} (population : list A) cum :
  Det (choices_cum population cum).
Proof. unfold choices_cum. det. Qed.
#[local] Hint Resolve det_choice det_choices_cum : det.

Lemma det_choices_int {A} (population : list A) ws :
  Det (choices_int population ws).
Proof. unfold choices_int. det. Qed.

Lemma det_choices_float {A} (population : list A) ws :
  Det (choices_float population ws).
Proof. unfold choices_float. det. Qed.

Lemma det_choices_uniform {A} (population : list A) :
  Det (choices_uniform population).
Proof. unfold choices_uniform. det. Qed.

Lemma det_getitem {V} (d : list (string * V)) k : Det (getitem d k).
Proof. unfold getitem. det. Qed.

Lemma det_lift_fuel {A} (o : option A) : Det (lift_fuel o).
Proof. unfold lift_fuel. det. Qed.
#[local] Hint Resolve det_choices_int det_choices_float det_choices_uniform
  det_getitem det_lift_fuel : det.

Lemma det_generate_icn : Det generate_icn.
Proof. unfold generate_icn. det. Qed.

Lemma det_generate_customer_name : Det generate_customer_name.
Proof. unfold generate_customer_name. det. Qed.

Lemma det_pick_weighted_state : Det pick_weighted_state.
Proof. unfold pick_weighted_state. det. Qed.
#[local] Hint Resolve det_generate_icn det_generate_customer_name
  det_pick_weighted_state : det.

Lemma det_get_region_district_territory state :
  Det (get_region_district_territory state).
Proof. unfold get_region_district_territory. det. Qed.

Lemma det_pick_seller_for_category sellers category :
  Det (pick_seller_for_category sellers category).
Proof. unfold pick_seller_for_category. det. Qed.

Lemma det_pick_state ibs : Det (pick_state ibs).
Proof. unfold pick_state. det. Qed.

Lemma det_items_per_day date : Det (items_per_day date).
Proof. unfold items_per_day. det. Qed.
#[local] Hint Resolve det_get_region_district_territory
  det_pick_seller_for_category det_pick_state det_items_per_day : det.

Lemma det_generate_buyer acc : Det (generate_buyer acc).
Proof. unfold generate_buyer. det. Qed.

Lemma det_generate_seller ty acc : Det (generate_seller ty acc).
Proof. unfold generate_seller. det. Qed.
#[local] Hint Resolve det_generate_buyer det_generate_seller : det.

Lemma det_generate_customers : Det generate_customers.
Proof. unfold generate_customers. det. Qed.

Lemma det_bid_body buyers buyer hammer n date id bid_num acc :
  Det (bid_body buyers buyer hammer n date id bid_num acc).
Proof. unfold bid_body. det. Qed.

Lemma det_fee_body id acc : Det (fee_body id acc).
Proof. unfold fee_body. det. Qed.

Lemma det_item_record sellers buyers date_str id category state :
  Det (item_record sellers buyers date_str id category state).
Proof. unfold item_record. det. Qed.
#[local] Hint Resolve det_generate_customers det_bid_body det_fee_body
  det_item_record : det.

Lemma det_item_body sellers buyers date dist date_str st :
  Det (item_body sellers buyers date dist date_str st).
Proof. unfold item_body. det. Qed.
#[local] Hint Resolve det_item_body : det.

Lemma det_day_body sellers buyers date st :
  Det (day_body sellers buyers date st).
Proof. unfold day_body. det. Qed.
#[local] Hint Resolve det_day_body : det.

Lemma det_generate_items_bids_fees customers :
  Det (generate_items_bids_fees customers).
Proof. unfold generate_items_bids_fees, generate_over. det. Qed.
#[local] Hint Resolve det_generate_items_bids_fees : det.


(* ------------------------------------------------------------------ *)
(** ** A run followed from its first item *)

Lemma bind_run {A B} (m : M A) (f : A -> M B) r a r1 :
  m r = Ok (a, r1) -> bind m f r = f a r1.
Proof. intros E. unfold bind. now rewrite E. Qed.

(** The first item of a run, and its bids, stay in the tables to the end
    of the generation. *)
Lemma first_item_kept customers r d dates n m r1 st1 r2 it :
  filter is_seller customers <> [] -> filter is_buyer customers <> [] ->
  generate_auction_dates = Some (d :: dates) ->
  items_per_day d r = Ok (n, r1) ->
  Z.to_nat n = S m ->
  item_body (filter is_seller customers) (filter is_buyer customers) d
            (get_category_distribution d) (strftime_date d)
            initial_state r1 = Ok (st1, r2) ->
  items st1 = [it] ->
  exists its bs fs r',
    generate_items_bids_fees customers r = Ok (its, bs, fs, r') /\
    In it its /\ bids_of it bs = bids st1.
Proof.
  intros Hs Hb Ed En Em E1 Eit.
  pose proof (returns_value _ _ _ _ _
                (returns_item_body _ _ d (strftime_date d) initial_state Hs Hb)
                E1) as Hstep.
  pose proof (inv_step _ _ inv_initial Hstep) as Hinv1.
  set (I := fun st => Inv st /\ In it (items st) /\ bids_of it (bids st) = bids st1).
  assert (forall st st', I st -> step_ok st st' -> I st') as HI.
  { intros st st' (Hinv & Hin & Hbs) Hst. split; [eapply inv_step; eauto|].
    destruct Hst as (x & new & newf & Ei & Eb & _ & _ & _ & _ & Hall & _).
    rewrite Ei, Eb, bids_of_app. split; [apply in_app_iff; now left|].
    rewrite Hbs. replace (bids_of it new) with (@nil Bid.t);
      [apply app_nil_r|].
    symmetry. apply filter_none. eapply Forall_impl; [|exact Hall].
    intros b Hb'. cbv beta in Hb'. apply Z.eqb_neq.
    destruct Hinv as (Hid & _). specialize (Hid it Hin). lia. }
  assert (I st1) as H1.
  { split; [exact Hinv1|]. split; [rewrite Eit; now left|].
    destruct Hstep as (x & new & newf & Ei & Eb & _ & _ & Hx & _ & Hall & _).
    rewrite Eit in Ei. simpl in Ei. inversion Ei; subst x.
    rewrite Eb. simpl. apply filter_all. eapply Forall_impl; [|exact Hall].
    intros b Hb'. cbv beta in Hb'. apply Z.eqb_eq. lia. }
  destruct (returns_item_loop I _ _ d (strftime_date d) Hs Hb HI m st1 H1 r2)
    as (st2 & r3 & E2 & H2).
  destruct (returns_day_loop I _ _ Hs Hb HI dates st2 H2 r3)
    as (st3 & r4 & E3 & (_ & Hin & Hbs)).
  exists (items st3), (bids st3), (fees st3), r4. split; [|tauto].
  unfold generate_items_bids_fees. rewrite Ed. simpl lift_fuel.
  unfold bind at 1. unfold ret at 1.
  unfold generate_over. rewrite forM_cons.
  erewrite bind_run with (m := bind _ _); [reflexivity|].
  erewrite bind_run; [exact E3|].
  unfold day_body. erewrite bind_run; [|exact En].
  rewrite Em, repeatM_S. erewrite bind_run; [exact E2 | exact E1].
Qed.

(** Evaluate the left-hand side of an equation about a run and name the
    values it fixes. *)
Ltac evaluate H :=
  let H' := fresh "Hv" in
  pose proof H as H'; vm_compute in H';
  first [discriminate H' | inversion H'; subst; clear H'].

(** Follow a run on concrete customers and a concrete random source up to
    its first item, and keep that item to the end of the run. *)
Ltac follow_first_item customers r0 Hs Hb :=
  let Ed := fresh "Ed" in
  let En := fresh "En" in
  let E1 := fresh "E1" in
  destruct generate_auction_dates as [[|? ?]|] eqn:Ed; evaluate Ed;
  match type of Ed with
  | _ = Some (?d :: _) =>
      destruct (items_per_day d r0) as [[? ?]|?] eqn:En; evaluate En;
      match type of En with
      | _ = Ok (_, ?r1) =>
          destruct (item_body (filter is_seller customers)
                      (filter is_buyer customers) d
                      (get_category_distribution d) (strftime_date d)
                      initial_state r1) as [[? ?]|?] eqn:E1; evaluate E1;
          edestruct (first_item_kept customers r0)
            as (its & bs & fs & r' & E & Hin & Hbids);
          [exact Hs | exact Hb | exact Ed | exact En | reflexivity | exact E1
          | reflexivity |]
      end
  end.

(* ================================================================== *)
(** * The claims *)

(** C1.  For every item that [generate_items_bids_fees] emits, the bid
    table holds exactly [num_bids] bids of the item, exactly one of them
    has [is_winning_bid = 1], and that bid carries the item's hammer price
    and the item's buyer. *)
Theorem one_winning_bid_per_item customers r :
  filter is_seller customers <> [] -> filter is_buyer customers <> [] ->
  exists its bs fs r',
    generate_items_bids_fees customers r = Ok (its, bs, fs, r') /\
    forall it, In it its ->
      Z.of_nat (List.length (bids_of it bs)) = Item.num_bids it /\
      exists w,
        winning (bids_of it bs) = [w] /\
        Bid.bid_amount w = Item.hammer it /\
        Bid.bidder_id w = Item.buyer_id it.
Proof.
  intros Hs Hb.
  destruct (generation_invariant customers r Hs Hb)
    as (its & bs & fs & r' & E & Hitems & _ & _).
  exists its, bs, fs, r'. split; [exact E|].
  intros it Hin. destruct (Hitems it Hin) as (_ & Hrun & Hlen).
  split; [exact Hlen|].
  destruct (bid_run_split _ _ _ _ Hrun) as (front & w & Ebs & Hall & _ & Hw & Ha & Hbid).
  exists w. rewrite Ebs. split; [now apply winning_split | tauto].
Qed.

Lemma one_winning_bid_per_item_witness :
  filter is_seller example_customers <> [] /\
  filter is_buyer example_customers <> [] /\
  exists its bs fs r',
    generate_items_bids_fees example_customers (tape_of [] 6) = Ok (its, bs, fs, r') /\
    forall it, In it its ->
      Z.of_nat (List.length (bids_of it bs)) = Item.num_bids it /\
      exists w,
        winning (bids_of it bs) = [w] /\
        Bid.bid_amount w = Item.hammer it /\
        Bid.bidder_id w = Item.buyer_id it.
Proof.
  split; [simpl; discriminate|]. split; [simpl; discriminate|].
  apply (one_winning_bid_per_item example_customers (tape_of [] 6));
    simpl; discriminate.
Defined.

(** C2 (as amended).  For every item that [generate_items_bids_fees]
    emits, the buyer's premium is [int(hammer * 0.10)], which is the
    integer quotient of the hammer price by ten (ten percent rounded down,
    not to nearest); the contract price is the hammer price plus the
    premium; and [reserve_met] is 1 exactly when the hammer price reaches
    the reserve price, and 0 otherwise. *)
Theorem derived_prices_of_every_item customers r :
  filter is_seller customers <> [] -> filter is_buyer customers <> [] ->
  exists its bs fs r',
    generate_items_bids_fees customers r = Ok (its, bs, fs, r') /\
    forall it, In it its ->
      Item.buyers_premium it
        = int_of_float (float_of_int (Item.hammer it) * 0.10) /\
      Item.buyers_premium it = Item.hammer it / 10 /\
      Item.contract_price it = Item.hammer it + Item.buyers_premium it /\
      (Item.reserve_met it = 1 <-> Item.reserve_price it <= Item.hammer it) /\
      (Item.reserve_met it = 0 <-> Item.hammer it < Item.reserve_price it).
Proof.
  intros Hs Hb.
  destruct (generation_invariant customers r Hs Hb)
    as (its & bs & fs & r' & E & Hitems & _ & _).
  exists its, bs, fs, r'. split; [exact E|].
  intros it Hin. destruct (Hitems it Hin) as ((Hp & Hc & Hr & Hh & _) & _).
  rewrite buyers_premium_quotient by exact Hh.
  split; [exact Hp|]. split; [exact Hp|]. split; [exact Hc|].
  rewrite Hr. destruct (Z.leb_spec (Item.reserve_price it) (Item.hammer it));
    split; split; intros; try lia; try discriminate.
Qed.

Lemma derived_prices_of_every_item_witness :
  filter is_seller example_customers <> [] /\
  filter is_buyer example_customers <> [] /\
  exists its bs fs r',
    generate_items_bids_fees example_customers (tape_of [] 6)
      = Ok (its, bs, fs, r') /\
    forall it, In it its ->
      Item.buyers_premium it
        = int_of_float (float_of_int (Item.hammer it) * 0.10) /\
      Item.buyers_premium it = Item.hammer it / 10 /\
      Item.contract_price it = Item.hammer it + Item.buyers_premium it /\
      (Item.reserve_met it = 1 <-> Item.reserve_price it <= Item.hammer it) /\
      (Item.reserve_met it = 0 <-> Item.hammer it < Item.reserve_price it).
Proof.
  split; [simpl; discriminate|]. split; [simpl; discriminate|].
  apply (derived_prices_of_every_item example_customers (tape_of [] 6));
    simpl; discriminate.
Defined.

(** C2, counterexample.  On the customer table [example_customers] and
    the random source whose every draw is 6, the first item has hammer
    price 25006 and buyer's premium 2500, and 2500 is not an integer
    nearest to 2500.6. *)
Lemma premium_not_rounded_to_nearest :
  exists its bs fs r',
    generate_items_bids_fees example_customers (tape_of [] 6)
      = Ok (its, bs, fs, r') /\
    exists it, In it its /\
      Item.hammer it = 25006 /\ Item.buyers_premium it = 2500 /\
      ~ nearest_tenth (Item.hammer it) (Item.buyers_premium it).
Proof.
  assert (filter is_seller example_customers <> []) as Hs by (simpl; discriminate).
  assert (filter is_buyer example_customers <> []) as Hb by (simpl; discriminate).
  follow_first_item example_customers (tape_of [] 6) Hs Hb.
  exists its, bs, fs, r'. split; [exact E|].
  eexists. split; [exact Hin|]. split; [reflexivity|]. split; [reflexivity|].
  unfold nearest_tenth. simpl. lia.
Qed.

(** C3 (as amended).  For every item that [generate_items_bids_fees]
    emits and every random source, the item's bids in emission order are
    non-winning bids followed by the winning bid; the amounts of the
    non-winning bids are strictly increasing, each above the previous one
    (the first above the starting bid) by 100 to 1000; the winning bid's
    amount is the hammer price, whatever the amounts before it. *)
Theorem bids_rise_until_the_winning_bid customers r :
  filter is_seller customers <> [] -> filter is_buyer customers <> [] ->
  exists its bs fs r',
    generate_items_bids_fees customers r = Ok (its, bs, fs, r') /\
    forall it, In it its ->
      exists front w,
        bids_of it bs = front ++ [w] /\
        Forall (fun b => Bid.is_winning_bid b = 0) front /\
        rising (Item.starting_bid it) (map Bid.bid_amount front) /\
        increasing (map Bid.bid_amount front) /\
        Bid.is_winning_bid w = 1 /\ Bid.bid_amount w = Item.hammer it.
Proof.
  intros Hs Hb.
  destruct (generation_invariant customers r Hs Hb)
    as (its & bs & fs & r' & E & Hitems & _ & _).
  exists its, bs, fs, r'. split; [exact E|].
  intros it Hin. destruct (Hitems it Hin) as (_ & Hrun & _).
  destruct (bid_run_split _ _ _ _ Hrun)
    as (front & w & Ebs & Hall & Hrise & Hw & Ha & _).
  exists front, w. destruct (rising_above _ _ Hrise) as [Hinc _]. tauto.
Qed.

Lemma bids_rise_until_the_winning_bid_witness :
  filter is_seller example_customers <> [] /\
  filter is_buyer example_customers <> [] /\
  exists its bs fs r',
    generate_items_bids_fees example_customers (tape_of [] 794)
      = Ok (its, bs, fs, r') /\
    forall it, In it its ->
      exists front w,
        bids_of it bs = front ++ [w] /\
        Forall (fun b => Bid.is_winning_bid b = 0) front /\
        rising (Item.starting_bid it) (map Bid.bid_amount front) /\
        increasing (map Bid.bid_amount front) /\
        Bid.is_winning_bid w = 1 /\ Bid.bid_amount w = Item.hammer it.
Proof.
  split; [simpl; discriminate|]. split; [simpl; discriminate|].
  apply (bids_rise_until_the_winning_bid example_customers (tape_of [] 794));
    simpl; discriminate.
Defined.

(** C3, counterexample.  On the customer table [example_customers] and
    the random source whose every draw is 794, the first item has fifteen
    bids whose amounts end in 24916, 25810, 25794: the winning bid, forced
    to the hammer price 25794, is below the bid before it. *)
Lemma bid_amounts_not_increasing :
  exists its bs fs r',
    generate_items_bids_fees example_customers (tape_of [] 794)
      = Ok (its, bs, fs, r') /\
    exists it, In it its /\
      map Bid.bid_amount (bids_of it bs)
        = [14188; 15082; 15976; 16870; 17764; 18658; 19552; 20446; 21340;
           22234; 23128; 24022; 24916; 25810; 25794] /\
      ~ increasing (map Bid.bid_amount (bids_of it bs)).
Proof.
  assert (filter is_seller example_customers <> []) as Hs by (simpl; discriminate).
  assert (filter is_buyer example_customers <> []) as Hb by (simpl; discriminate).
  follow_first_item example_customers (tape_of [] 794) Hs Hb.
  exists its, bs, fs, r'. split; [exact E|].
  eexists. split; [exact Hin|]. rewrite Hbids.
  split; [reflexivity|]. simpl. lia.
Qed.

(** C9.  For every item that [generate_items_bids_fees] emits: with two
    bids or more, the first bid is the starting bid plus an increment in
    [[100, 1000]], hence above the starting bid; no non-winning bid has
    the starting bid as its amount (each is above it); and with one bid,
    that bid's amount is the hammer price, which is not the starting
    bid. *)
Theorem first_bid_above_starting_bid customers r :
  filter is_seller customers <> [] -> filter is_buyer customers <> [] ->
  exists its bs fs r',
    generate_items_bids_fees customers r = Ok (its, bs, fs, r') /\
    forall it, In it its ->
      (2 <= Item.num_bids it ->
       exists b rest, bids_of it bs = b :: rest /\
         Item.starting_bid it + 100 <= Bid.bid_amount b
           <= Item.starting_bid it + 1000) /\
      (forall b, In b (bids_of it bs) -> Bid.is_winning_bid b = 0 ->
         Item.starting_bid it < Bid.bid_amount b) /\
      (Item.num_bids it = 1 ->
       exists w, bids_of it bs = [w] /\
         Bid.bid_amount w = Item.hammer it /\
         Bid.bid_amount w <> Item.starting_bid it).
Proof.
  intros Hs Hb.
  destruct (generation_invariant customers r Hs Hb)
    as (its & bs & fs & r' & E & Hitems & _ & _).
  exists its, bs, fs, r'. split; [exact E|].
  intros it Hin. destruct (Hitems it Hin) as (Hok & Hrun & Hlen).
  destruct Hok as (_ & _ & _ & _ & Hlt & _).
  destruct (bid_run_split _ _ _ _ Hrun)
    as (front & w & Ebs & Hall & Hrise & Hw & Ha & _).
  destruct (rising_above _ _ Hrise) as [_ Habove].
  rewrite Ebs in *. rewrite length_app in Hlen. simpl in Hlen.
  split; [|split].
  - intros H2. destruct front as [|b front']; [simpl in Hlen; lia|].
    exists b, (front' ++ [w]). split; [reflexivity|].
    simpl in Hrise. tauto.
  - intros b Hb' H0. apply in_app_iff in Hb'. destruct Hb' as [Hb'|[<-|[]]].
    + rewrite Forall_forall in Habove.
      apply Habove, in_map, Hb'.
    + congruence.
  - intros H1. destruct front as [|b front']; [|simpl in Hlen; lia].
    exists w. simpl. split; [reflexivity|]. split; [exact Ha | lia].
Qed.

Lemma first_bid_above_starting_bid_witness :
  filter is_seller example_customers <> [] /\
  filter is_buyer example_customers <> [] /\
  exists its bs fs r',
    generate_items_bids_fees example_customers (tape_of [] 6)
      = Ok (its, bs, fs, r') /\
    forall it, In it its ->
      (2 <= Item.num_bids it ->
       exists b rest, bids_of it bs = b :: rest /\
         Item.starting_bid it + 100 <= Bid.bid_amount b
           <= Item.starting_bid it + 1000) /\
      (forall b, In b (bids_of it bs) -> Bid.is_winning_bid b = 0 ->
         Item.starting_bid it < Bid.bid_amount b) /\
      (Item.num_bids it = 1 ->
       exists w, bids_of it bs = [w] /\
         Bid.bid_amount w = Item.hammer it /\
         Bid.bid_amount w <> Item.starting_bid it).
Proof.
  split; [simpl; discriminate|]. split; [simpl; discriminate|].
  apply (first_bid_above_starting_bid example_customers (tape_of [] 6));
    simpl; discriminate.
Defined.

(** C5.  For every table of items generated so far: a state whose count
    has reached its target has remaining weight 0; the sampler takes the
    base state-weight distribution ([pick_weighted_state]) exactly when
    every remaining quota is 0, and otherwise draws by the remaining
    quotas; in that quota phase the state it returns is one whose count
    is still below its target.  Throughout a run of [main], every item is
    placed in a state whose quota was open when the item was drawn,
    unless no quota was open any more. *)
Theorem exhausted_states_are_not_selected :
  (forall ibs,
     let remaining := remaining_states STATE_DISTRIBUTION ibs in
     (forall s target, lookup s STATE_DISTRIBUTION = Some target ->
        target <= count_of s ibs -> lookup s remaining = Some 0) /\
     (sum (values remaining) = 0 <->
      forall s target, lookup s STATE_DISTRIBUTION = Some target ->
        target <= count_of s ibs) /\
     (sum (values remaining) = 0 -> pick_state ibs = pick_weighted_state) /\
     (sum (values remaining) <> 0 ->
      pick_state ibs = choices_int (keys remaining) (values remaining)) /\
     (forall r, exists s r' target,
        pick_state ibs r = Ok (s, r') /\
        lookup s STATE_DISTRIBUTION = Some target /\
        (sum (values remaining) <> 0 ->
         count_of s ibs < target /\ lookup s remaining <> Some 0))) /\
  (forall r, exists out r',
     main r = Ok (out, r') /\ quota_respected (out_items out)).
Proof.
  split.
  - intros ibs remaining. split; [|split; [|split; [|split]]].
    + intros s target Hs Hle. subst remaining.
      rewrite lookup_remaining, Hs. simpl. f_equal. lia.
    + subst remaining. rewrite quota_sum_zero. split.
      * intros H s target Hs. apply H, state_lookup, Hs.
      * intros H s target Hs. apply H, state_lookup, Hs.
    + intros E. unfold pick_state. fold remaining. now rewrite E.
    + intros N. unfold pick_state. fold remaining.
      apply Z.eqb_neq in N. now rewrite N.
    + intros r. destruct (returns_pick_state ibs r)
        as (s & r' & E & target & Hin & Hq).
      exists s, r', target. split; [exact E|].
      apply state_lookup in Hin. split; [exact Hin|].
      intros N. assert (count_of s ibs < target) as Hlt.
      { apply Hq. destruct (quota_sum_zero ibs) as [_ H].
        fold remaining in H.
        assert (~ forall s target, In (s, target) STATE_DISTRIBUTION ->
                  target <= count_of s ibs) as Hn by tauto.
        clear - Hn.
        assert (forall d : list (string * Z),
                  (exists s' t', In (s', t') d /\ count_of s' ibs < t')
                  \/ forall s target, In (s, target) d -> target <= count_of s ibs)
          as Hdec.
        { induction d as [|[k x] d IH].
          - right. intros s t [].
          - destruct (Z_lt_le_dec (count_of k ibs) x) as [L|L].
            + left. exists k, x. split; [now left | exact L].
            + destruct IH as [(s' & t' & Hi & Hl)|IH].
              * left. exists s', t'. split; [now right | exact Hl].
              * right. intros s t [Eq|Hi]; [inversion Eq; subst; exact L|].
                now apply IH. }
        destruct (Hdec STATE_DISTRIBUTION) as [Hex|Hall]; [exact Hex | tauto]. }
      split; [exact Hlt|]. subst remaining.
      rewrite lookup_remaining, Hin. simpl. intros Eq. inversion Eq. lia.
  - intros r. destruct (returns_main r) as (out & r' & E & _ & Hq & _).
    exists out, r'. split; assumption.
Qed.

(** C4 (as amended).  The generator of the CSV profile returns, in
    chronological order, exactly the dates from 2025-08-01 to 2025-12-31
    whose weekday is Tuesday, Wednesday or Thursday and which are not in
    its holiday set (2025-11-27 and 2025-12-25).  The generator of the
    database profile has no holiday set: it returns, in chronological
    order, exactly the dates of that range whose weekday is Tuesday,
    Wednesday or Thursday. *)
Theorem auction_dates_of_both_profiles :
  (exists dates,
     generate_auction_dates = Some dates /\
     chronological dates /\
     forall d, In d dates <->
       (seconds d = 0 /\
        ordinal start_date <= ordinal d <= ordinal end_date /\
        (weekday d = 1 \/ weekday d = 2 \/ weekday d = 3) /\
        ~ In d holidays)) /\
  (exists dates,
     Mock.generate_auction_dates = Some dates /\
     chronological dates /\
     forall d, In d dates <->
       (seconds d = 0 /\
        ordinal start_date <= ordinal d <= ordinal end_date /\
        (weekday d = 1 \/ weekday d = 2 \/ weekday d = 3))).
Proof.
  assert (forall hol,
            auction_dates_loop (days_fuel start_date end_date)
              start_date end_date hol []
            = Some (filter (is_auction_day hol) (days_from start_date 153)))
    as Hloop.
  { intros hol.
    rewrite (auction_dates_loop_spec hol end_date 153 start_date []);
      [reflexivity | reflexivity | reflexivity | vm_compute; lia]. }
  assert (forall hol d,
            In d (filter (is_auction_day hol) (days_from start_date 153)) <->
            (seconds d = 0 /\
             ordinal start_date <= ordinal d <= ordinal end_date /\
             (weekday d = 1 \/ weekday d = 2 \/ weekday d = 3) /\
             ~ In d hol)) as Hin.
  { intros hol d. rewrite filter_In, in_days_from, is_auction_day_spec.
    change (seconds start_date) with 0.
    change (ordinal start_date) with 739464.
    change (ordinal end_date) with 739616. split; intros H; repeat split;
      try tauto; lia. }
  split.
  - eexists. split; [apply Hloop|]. split.
    + apply chronological_filter, chronological_days_from.
    + apply Hin.
  - eexists. split; [apply (Hloop [])|]. split.
    + apply chronological_filter, chronological_days_from.
    + intros d. rewrite Hin. simpl. tauto.
Qed.

(** C4, counterexample.  The generator of the database profile returns
    2025-11-27, a Thursday that is in the holiday set. *)
Lemma mock_calendar_keeps_holidays :
  exists dates,
    Mock.generate_auction_dates = Some dates /\
    In (mk_date 2025 11 27) dates /\
    In (mk_date 2025 11 27) holidays /\
    weekday (mk_date 2025 11 27) = 3.
Proof.
  eexists. split; [vm_compute; reflexivity|].
  split; [|split; [now left | reflexivity]].
  apply (nth_error_In _ 50). reflexivity.
Qed.

(** C8.  On every date of the auction calendar of the database profile,
    and of the CSV profile, the week number that the incremental tracker
    of the database profile assigns (a new week when seven days or more
    have passed since the first auction date of the current week) is the
    week index [floor((date - epoch).days / 7) + 1] with epoch
    2025-08-01, which is what [get_week_number] of the CSV profile
    computes. *)
Theorem tracked_week_is_week_index :
  (exists dates,
     Mock.generate_auction_dates = Some dates /\
     map fst (Mock.tracked_weeks dates (0, None)) = dates /\
     forall d w, In (d, w) (Mock.tracked_weeks dates (0, None)) ->
       w = week_index d (mk_date 2025 8 1) /\ w = get_week_number d) /\
  (exists dates,
     generate_auction_dates = Some dates /\
     map fst (Mock.tracked_weeks dates (0, None)) = dates /\
     forall d w, In (d, w) (Mock.tracked_weeks dates (0, None)) ->
       w = week_index d (mk_date 2025 8 1) /\ w = get_week_number d).
Proof.
  assert (forall dates,
            forallb (fun p => (snd p =? week_index (fst p) (mk_date 2025 8 1))
                              && (snd p =? get_week_number (fst p)))
                    (Mock.tracked_weeks dates (0, None)) = true ->
            forall d w, In (d, w) (Mock.tracked_weeks dates (0, None)) ->
              w = week_index d (mk_date 2025 8 1) /\ w = get_week_number d)
    as Hall.
  { intros dates H d w Hin. rewrite forallb_forall in H.
    specialize (H _ Hin). simpl in H.
    apply andb_true_iff in H. destruct H as [Ha Hb].
    apply Z.eqb_eq in Ha. apply Z.eqb_eq in Hb. tauto. }
  split; (eexists; split; [vm_compute; reflexivity|];
          split; [vm_compute; reflexivity | apply Hall; vm_compute; reflexivity]).
Qed.

(** C7.  In the CSV profile the fees of every item of a run are a Seller
    Service Fee and a Lot Fee, then a Power Washing fee exactly when the
    unit draw for it is below 0.60 and a Decal Removal fee exactly when
    the next unit draw is below 0.20.  In the database profile the two fixed fees are always
    charged and the decal removal fee is charged exactly when its draw is
    above 0.8, but the power washing fee is charged exactly when its draw
    is above 0.6: on fewer than two fifths of the [2^53] equally likely
    draws, and not at the draw 0.5, where the CSV profile charges it. *)
Theorem power_washing_draws_of_both_profiles :
  (forall id fs fid r,
     fee_body id (fs, fid) r
     = Ok ((fs ++ fee_records id fid (next_unit r) (next_unit (skip 1 r)),
            fid + Z.of_nat (List.length
                     (fee_records id fid (next_unit r) (next_unit (skip 1 r))))),
           skip 2 r)) /\
  (forall r, exists out r',
     main r = Ok (out, r') /\
     forall it, In it (out_items out) ->
       exists fid k1 k2,
         fees_of it (out_fees out)
         = fee_records (Item.unique_id it) fid k1 k2) /\
  (forall id fid k1 k2,
     let new := fee_records id fid k1 k2 in
     let types := map Fee.fee_type new in
     (exists rest, types = "Seller Service Fee" :: "Lot Fee" :: rest) /\
     (In "Power Washing" types <-> k1 < 5404319552844595) /\
     (In "Decal Removal" types <-> k2 <= 1801439850948198)) /\
  (forall h r, exists fees,
     Mock.generate_fees h r = Ok (fees, skip 2 r) /\
     Mock.seller_service_fee fees = 200 /\ Mock.lot_fee fees = 150 /\
     (Mock.power_washing fees = 225 <-> 5404319552844595 < next_unit r) /\
     (Mock.power_washing fees = 0 <-> next_unit r <= 5404319552844595) /\
     (Mock.decal_removal fees = 100 <-> 7205759403792794 < next_unit (skip 1 r))) /\
  5 * (two53 - 1 - 5404319552844595) < 2 * two53 /\
  (exists fees r',
     Mock.generate_fees 25000 (tape_of [2 ^ 52] 0) = Ok (fees, r') /\
     Mock.power_washing fees = 0 /\
     In "Power Washing"
        (map Fee.fee_type (fee_records 1 1 (2 ^ 52) 0))).
Proof.
  split; [intros; apply fee_body_run|]. split; [|split; [|split; [|split]]].
  - intros r. destruct (returns_main r) as (out & r' & E & _ & _ & Hf).
    exists out, r'. split; assumption.
  - intros id fid k1 k2 new types. subst new types. unfold fee_records.
    pose proof (unit_lt_060 k1) as H1. pose proof (unit_lt_020 k2) as H2.
    destruct (unit_lt k1 0.60), (unit_lt k2 0.20); simpl;
      (split; [eexists; reflexivity|]);
      split; split; intros H; try tauto; try lia;
      repeat (destruct H as [H|H]; try discriminate H); try tauto;
      exfalso; intuition congruence.
  - intros h r. rewrite mock_generate_fees_run. eexists. split; [reflexivity|].
    simpl. pose proof (unit_gt_06 (next_unit r)) as H1.
    pose proof (unit_gt_08 (next_unit (skip 1 r))) as H2.
    destruct (unit_gt (next_unit r) 0.6), (unit_gt (next_unit (skip 1 r)) 0.8);
      repeat split; intros; try lia; try tauto; try discriminate;
      try (apply H1; reflexivity); try (apply H2; reflexivity);
      exfalso; intuition (try lia; try congruence).
  - reflexivity.
  - eexists _, _. split; [vm_compute; reflexivity|].
    split; [reflexivity|]. vm_compute. tauto.
Qed.

(** C10.  Every row that the database profile produces has
    [total_fees = seller_service_fee + lot_fee + power_washing +
    decal_removal], where each optional fee is its amount when charged
    and 0 when not. *)
Theorem total_fees_of_every_row :
  forall r, exists rows r',
    Mock.generate_rows r = Ok (rows, r') /\
    forall row, In row rows ->
      Mock.row_total_fees row
        = Mock.row_seller_service_fee row + Mock.row_lot_fee row
          + Mock.row_power_washing row + Mock.row_decal_removal row /\
      (Mock.row_power_washing row = 225 \/ Mock.row_power_washing row = 0) /\
      (Mock.row_decal_removal row = 100 \/ Mock.row_decal_removal row = 0).
Proof.
  intros r. destruct (returns_mock_generate_rows r) as (rows & r' & E & H).
  exists rows, r'. split; [exact E|]. intros row Hin.
  rewrite Forall_forall in H. specialize (H row Hin).
  unfold row_ok in H. tauto.
Qed.


